(** * gen_test_output.py: a batch runner around [krun --search]

    The script lists the directory [tests], keeps the regular files whose
    name does not contain [.out], and for each of them hands the line
    [krun --search tests/<name> > tests/<name>.out] to the shell through
    [os.system].

    The embedding follows the script line by line.  What the script only
    calls (the directory tree, the shell, the [krun] executable) is modelled
    as follows.
    - The working directory is a tree of regular files and directories.
      Permissions, links and special files are left out.
    - [os.listdir] returns the names of a directory in an order the script
      has no control over: the order is a parameter, constrained to be an
      enumeration of the directory.
    - The shell is modelled on the fragment of command lines made of plain
      words separated by spaces, with [>] standing alone as the output
      redirection.  What the shell does with any other line is a parameter;
      [sh_glob], a shell that expands bracket patterns, is one value of it.
    - Executables are a parameter: a program reads its arguments and the
      tree and yields its standard output and exit code; it writes nowhere
      but to its standard output.

    The exceptions bear their Python 3 names; in Python 2 both errors of
    [os.listdir] are [OSError]. *)

From Stdlib Require Import Ascii String ZArith.
From stdpp Require Import gmap strings list fin_maps sorting.

Local Open Scope Z_scope.
#[local] Arguments String.append !_ _ / : simpl nomatch.

(** ** Strings as Python and the shell see them *)

Fixpoint str_all (p : ascii → bool) (s : string) : bool :=
  match s with
  | EmptyString => true
  | String c s' => p c && str_all p s'
  end.

(** [needle in hay] on Python strings. *)
Fixpoint py_in (needle hay : string) : bool :=
  match hay with
  | EmptyString => String.prefix needle hay
  | String _ hay' => String.prefix needle hay || py_in needle hay'
  end.

(** [s.split(sep)] for a one-character separator: the pieces between
    separators, empty pieces included. *)
Fixpoint str_split (sep : ascii) (s : string) : list string :=
  match s with
  | EmptyString => [EmptyString]
  | String c s' =>
      if decide (c = sep) then EmptyString :: str_split sep s'
      else match str_split sep s' with
           | w :: ws => String c w :: ws
           | [] => [String c EmptyString]
           end
  end.

Fixpoint str_last (s : string) : option ascii :=
  match s with
  | EmptyString => None
  | String c EmptyString => Some c
  | String _ s' => str_last s'
  end.

(** The [%] operator on a template whose only conversions are [%s].
    [None] stands for the [TypeError] Python raises when the number of
    arguments and of conversions differ; other conversions are not used by
    the script and are not modelled. *)
Fixpoint pyformat (tpl : string) (args : list string) : option string :=
  match tpl with
  | EmptyString => match args with [] => Some EmptyString | _ => None end
  | String "%" (String "s" rest) =>
      match args with
      | a :: args' => String.append a <$> pyformat rest args'
      | [] => None
      end
  | String "%" _ => None
  | String c rest => String c <$> pyformat rest args
  end.

(** [posixpath.join] on two components. *)
Definition join (a b : string) : string :=
  if String.prefix "/" b then b
  else if bool_decide (a = "") || bool_decide (str_last a = Some "/"%char)
       then a +:+ b
       else a +:+ "/" +:+ b.

(** ** The directory tree *)

#[warning="-register-all"]
Inductive node : Type :=
| File (data : string)
| Dir (entries : gmap string node).

Definition is_file (o : option node) : bool :=
  match o with Some (File _) => true | _ => false end.

Definition is_dir (o : option node) : bool :=
  match o with Some (Dir _) => true | _ => false end.

Definition path_of (p : string) : list string := str_split "/" p.

Fixpoint lookup_path (comps : list string) (n : node) : option node :=
  match comps with
  | [] => Some n
  | c :: rest =>
      match n with
      | File _ => None
      | Dir es =>
          match es !! c with
          | Some sub => lookup_path rest sub
          | None => None
          end
      end
  end.

(** Opening a path for writing and storing [data] in it: the file is created
    in an existing directory or replaced; a directory in the way, or a
    missing one, makes the call fail. *)
Fixpoint write_at (comps : list string) (data : string) (n : node) : option node :=
  match comps with
  | [] => match n with File _ => Some (File data) | Dir _ => None end
  | c :: rest =>
      match n with
      | File _ => None
      | Dir es =>
          match es !! c with
          | Some sub =>
              match write_at rest data sub with
              | Some sub' => Some (Dir (<[c := sub']> es))
              | None => None
              end
          | None =>
              match rest with
              | [] => Some (Dir (<[c := File data]> es))
              | _ :: _ => None
              end
          end
      end
  end.

(** ** Python's view: exceptions, [listdir], [isfile] *)

Inductive exn : Type :=
| FileNotFoundError
| NotADirectoryError
| TypeError.

Inductive result (A : Type) : Type :=
| Ok (a : A)
| Raise (e : exn).
Arguments Ok {A} a.
Arguments Raise {A} e.

Definition isfile (p : string) (root : node) : bool :=
  is_file (lookup_path (path_of p) root).

(** ** The shell *)

(** Characters that the shell reads as themselves anywhere in a word. *)
Definition plain_char (c : ascii) : bool :=
  let n := N_of_ascii c in
  ((48 <=? n) && (n <=? 57) || (65 <=? n) && (n <=? 90)
   || (97 <=? n) && (n <=? 122))%N
  || bool_decide (c ∈ ["_"; "-"; "."; "/"; "+"; ","; ":"; "@"]%char).

Inductive token : Type :=
| TWord (w : string)
| TGreat.

Definition classify (w : string) : option token :=
  if decide (w = ">") then Some TGreat
  else if str_all plain_char w then Some (TWord w)
  else None.

(** [None]: the line has a word outside the modelled fragment. *)
Definition tokenize (cmd : string) : option (list token) :=
  mapM classify (filter (λ w, w ≠ "") (str_split " " cmd)).

Record simple_cmd : Type := SimpleCmd {
  sc_argv : list string;
  sc_redirs : list string
}.

Definition add_word (w : string) (c : simple_cmd) : simple_cmd :=
  {| sc_argv := w :: sc_argv c; sc_redirs := sc_redirs c |}.

Definition add_redir (t : string) (c : simple_cmd) : simple_cmd :=
  {| sc_argv := sc_argv c; sc_redirs := t :: sc_redirs c |}.

(** [None]: a [>] without a target word, a syntax error. *)
Fixpoint parse_simple (ts : list token) : option simple_cmd :=
  match ts with
  | [] => Some {| sc_argv := []; sc_redirs := [] |}
  | TWord w :: ts' => add_word w <$> parse_simple ts'
  | TGreat :: TWord t :: ts' => add_redir t <$> parse_simple ts'
  | TGreat :: _ => None
  end.

Definition reserved_words : list string :=
  ["case"; "do"; "done"; "elif"; "else"; "esac"; "fi"; "for"; "function";
   "if"; "in"; "select"; "then"; "time"; "until"; "while"; "coproc"].

Definition valid_comp (c : string) : bool :=
  bool_decide (c ≠ "" ∧ c ≠ "." ∧ c ≠ "..").

Definition simple_path (p : string) : bool := forallb valid_comp (path_of p).

Inductive parsed : Type :=
| PSimple (c : simple_cmd)
| PSyntaxError
| POther.

Definition sh_parse (cmd : string) : parsed :=
  match tokenize cmd with
  | None => POther
  | Some ts =>
      match parse_simple ts with
      | None => PSyntaxError
      | Some c =>
          if forallb simple_path (sc_redirs c)
             && bool_decide (head (sc_argv c) ∉ Some <$> reserved_words)
          then PSimple c else POther
      end
  end.

(** The redirections of a command are opened from left to right, each one
    creating or emptying its file, before the command is looked up; the
    first that fails stops the command. *)
Fixpoint open_redirs (targets : list string) (root : node) : node * option string :=
  match targets with
  | [] => (root, None)
  | t :: ts =>
      match write_at (path_of t) "" root with
      | Some root' => open_redirs ts root'
      | None => (root, Some t)
      end
  end.

Record invocation : Type := Invocation {
  inv_argv : list string;
  inv_stdout : option string;
  inv_output : string;
  inv_status : Z
}.

Inductive sh_outcome : Type :=
| ShRan (i : invocation)
| ShNoCommand
| ShRedirError (target : string)
| ShSyntaxError
| ShOther.

Record call : Type := Call {
  call_cmd : string;
  call_outcome : sh_outcome
}.

Record state : Type := State {
  fs : node;
  calls : list call
}.

Definition program : Type := list string → node → string * Z.

(** ** Names and command lines *)

Definition TEST_DIR : string := "tests".

(** The condition of the list comprehension. *)
Definition qualifies (root : node) (f : string) : Prop :=
  isfile (join TEST_DIR f) root = true ∧ py_in ".out" f = false.

Global Instance qualifies_dec root f : Decision (qualifies root f).
Proof. unfold qualifies. apply _. Defined.

Definition is_not (sep : ascii) (c : ascii) : bool := bool_decide (c ≠ sep).

(** The characters of a plain file name: those the shell reads as
    themselves, the path separator excepted. *)
Definition name_char (c : ascii) : bool :=
  plain_char c && bool_decide (c ≠ "/"%char).

Definition plain_name (f : string) : Prop := str_all name_char f = true.

Global Instance plain_name_dec f : Decision (plain_name f).
Proof. unfold plain_name. apply _. Defined.

Definition input_path (f : string) : string := TEST_DIR +:+ "/" +:+ f.

Definition output_path (f : string) : string := input_path f +:+ ".out".

Definition out_name (f : string) : string := f +:+ ".out".

Definition cmd_of (f : string) : string :=
  "krun --search " +:+ input_path f +:+ " > " +:+ output_path f.

Definition krun_args (f : string) : list string := ["--search"; input_path f].

(** The record of a call that ran [krun] on [f] into [f]'s output file. *)
Definition ran_on (f : string) (out : string) (status : Z) : call :=
  {| call_cmd := cmd_of f;
     call_outcome :=
       ShRan {| inv_argv := "krun" :: krun_args f;
                inv_stdout := Some (output_path f);
                inv_output := out;
                inv_status := status |} |}.

(** The record of a call whose redirection could not be opened. *)
Definition redir_failed (f : string) : call :=
  {| call_cmd := cmd_of f; call_outcome := ShRedirError (output_path f) |}.

(** The working directory [es] with [d] as its test directory. *)
Definition with_tests (es : gmap string node) (d : gmap string node) : node :=
  Dir (<[TEST_DIR := Dir d]> es).

Definition read_file (p : string) (root : node) : option string :=
  match lookup_path (path_of p) root with
  | Some (File data) => Some data
  | _ => None
  end.

(** The calls of the loop, one per name: [krun] ran into the output file,
    unless a directory sits where the output file should be. *)
Definition call_for (d : gmap string node) (f : string) (c : call) : Prop :=
  if is_dir (d !! out_name f) then c = redir_failed f
  else ∃ out status, c = ran_on f out status.

(** ** The script *)

Section Script.

(** The order in which [os.listdir] yields the names of a directory. *)
Variable ls_order : gmap string node → list string.
Hypothesis ls_order_perm : ∀ es, ls_order es ≡ₚ (map_to_list es).*1.

(** What a command word resolves to, if anything. *)
Variable programs : string → option program.

(** The effect of a command line outside the modelled fragment. *)
Variable sh_other : string → node → node.

Definition listdir (p : string) (root : node) : result (list string) :=
  match lookup_path (path_of p) root with
  | Some (Dir es) => Ok (ls_order es)
  | Some (File _) => Raise NotADirectoryError
  | None => Raise FileNotFoundError
  end.

(** Running [name args]: a command that is not found writes nothing to its
    standard output and the shell reports 127. *)
Definition spawn (name : string) (args : list string) (root : node) : string * Z :=
  match programs name with
  | Some p => p args root
  | None => ("", 127)
  end.

Definition run_simple (c : simple_cmd) (root : node) : node * sh_outcome :=
  match open_redirs (sc_redirs c) root with
  | (root1, Some t) => (root1, ShRedirError t)
  | (root1, None) =>
      match sc_argv c with
      | [] => (root1, ShNoCommand)
      | name :: args =>
          let (out, status) := spawn name args root1 in
          let root2 :=
            match last (sc_redirs c) with
            | Some t => default root1 (write_at (path_of t) out root1)
            | None => root1
            end in
          (root2, ShRan {| inv_argv := name :: args;
                           inv_stdout := last (sc_redirs c);
                           inv_output := out;
                           inv_status := status |})
      end
  end.

Definition sh (cmd : string) (root : node) : node * sh_outcome :=
  match sh_parse cmd with
  | PSimple c => run_simple c root
  | PSyntaxError => (root, ShSyntaxError)
  | POther => (sh_other cmd root, ShOther)
  end.

(** Script steps thread the tree and the record of [os.system] calls, and
    may raise. *)
Definition M (A : Type) : Type := state → result A * state.

Definition ret {A} (a : A) : M A := λ st, (Ok a, st).

Definition raise {A} (e : exn) : M A := λ st, (Raise e, st).

Definition bind {A B} (m : M A) (k : A → M B) : M B :=
  λ st, match m st with
        | (Ok a, st') => k a st'
        | (Raise e, st') => (Raise e, st')
        end.

Notation "x <- m ;; k" := (bind m (λ x, k))
  (at level 100, m at next level, right associativity).

Definition get_fs : M node := λ st, (Ok (fs st), st).

Definition lift {A} (r : result A) : M A := λ st, (r, st).

Definition fmt (tpl : string) (args : list string) : M string :=
  match pyformat tpl args with
  | Some s => ret s
  | None => raise TypeError
  end.

(** [os.system]: the exit status is returned to a caller that drops it. *)
Definition system (cmd : string) : M unit :=
  λ st, let (root', oc) := sh cmd (fs st) in
        (Ok tt, {| fs := root';
                   calls := calls st ++ [{| call_cmd := cmd; call_outcome := oc |}] |}).

Fixpoint for_each {A} (l : list A) (body : A → M unit) : M unit :=
  match l with
  | [] => ret tt
  | x :: l' => _ <- body x ;; for_each l' body
  end.

Definition files : M (list string) :=
  root <- get_fs ;;
  names <- lift (listdir TEST_DIR root) ;;
  ret (filter (qualifies root) names).

Definition body (file : string) : M unit :=
  file <- fmt "%s/%s" [TEST_DIR; file] ;;
  cmd <- fmt "krun --search %s > %s.out" [file; file] ;;
  system cmd.

Definition main : M unit :=
  files <- files ;;
  for_each files body.

(** One run of the script in the working directory [root]. *)
Definition run (root : node) : result unit * state :=
  main {| fs := root; calls := [] |}.

(** *** What a run amounts to on plain names

    The definitions below are not part of the script: [effects] describes
    the loop as a function on the test directory, and is proved to be what
    the loop does on plain names ([for_each_plain]). *)

(** The names the script selects in the test directory [d] of [root]. *)
Definition inputs (root : node) (d : gmap string node) : list string :=
  filter (qualifies root) (ls_order d).

(** What the command sees when it starts: its output file, emptied. *)
Definition seen (es d : gmap string node) (f : string) : node :=
  with_tests es (<[out_name f := File ""]> d).

(** The effect of one iteration on the test directory, for a plain name. *)
Definition effect (es d : gmap string node) (f : string) : gmap string node * call :=
  if is_dir (d !! out_name f) then (d, redir_failed f)
  else let (out, status) := spawn "krun" (krun_args f) (seen es d f) in
       (<[out_name f := File out]> d, ran_on f out status).

Fixpoint effects (es d : gmap string node) (l : list string)
  : gmap string node * list call :=
  match l with
  | [] => (d, [])
  | f :: l' =>
      let r := effect es d f in
      let r' := effects es r.1 l' in
      (r'.1, r.2 :: r'.2)
  end.

End Script.

(** ** Sample environments and trees *)

(** A listing in the order of the map's own enumeration. *)
Definition listing (es : gmap string node) : list string := (map_to_list es).*1.

(** A stand-in for [krun] that prints its arguments and succeeds. *)
Definition echo : program := λ args _, ("ran " +:+ String.concat " " args, 0).

Definition only_krun (name : string) : option program :=
  if decide (name = "krun") then Some echo else None.

Definition no_programs (name : string) : option program := None.

Definition sh_ignore (cmd : string) (root : node) : node := root.

(** A shell whose unmodelled lines empty the working directory, as a line
    ending in [; rm -r *] would. *)
Definition sh_wipe (cmd : string) (root : node) : node := Dir ∅.

(** A working directory that holds [tests] with the entries [d] only. *)
Definition tree_of (d : gmap string node) : node := Dir {[ TEST_DIR := Dir d ]}.

Definition two_tests : gmap string node :=
  list_to_map [("a.test", File "A"); ("b.test", File "B"); ("a.test.out", File "old")].

Definition spaced : gmap string node := list_to_map [("a b", File "A")].

Definition barred : gmap string node :=
  list_to_map [("a", File "A"); ("a.out", Dir ∅)].

Definition hostile : gmap string node :=
  list_to_map [("a", File "A"); ("b;c", File "B")].

(** ** Further notions *)

(** A name as a directory holds them: without the path separator. *)
Definition no_slash (f : string) : Prop := str_all (is_not "/") f = true.

(** A [krun] whose output and status depend on its arguments only. *)
Definition tree_blind (programs : string → option program) : Prop :=
  ∀ args t1 t2, spawn programs "krun" args t1 = spawn programs "krun" args t2.

(** What a tree-blind [krun] prints on the input [f]. *)
Definition krun_out (programs : string → option program) (f : string) : string :=
  (spawn programs "krun" (krun_args f) (Dir ∅)).1.

(** A listing in the reverse of the map's own enumeration. *)
Definition listing_rev (es : gmap string node) : list string :=
  reverse (map_to_list es).*1.

Definition outputs_only : gmap string node :=
  list_to_map [("a.test.out", File "old"); ("sub", Dir ∅); ("notes.output.txt", File "n")].

(** ** Pathname expansion

    A shell for lines whose words hold bracket expressions such as [[o]],
    beside plain characters.  The words of the command are expanded against
    the tree before the redirections are opened: a word with a bracket
    expression is replaced by the existing paths it matches, in sorted
    order, and is kept as it is when it matches none.  The target of a
    redirection is not expanded (a shell started by [os.system] is not
    interactive).  Bracket expressions are sets of letters and digits;
    ranges, negation and the other wildcards are not modelled. *)

Definition alnum_char (c : ascii) : bool :=
  let n := N_of_ascii c in
  ((48 <=? n) && (n <=? 57) || (65 <=? n) && (n <=? 90)
   || (97 <=? n) && (n <=? 122))%N.

Inductive pat_item : Type :=
| PLit (c : ascii)
| PSet (cs : list ascii).

(** One path component as a pattern; [cur] holds the set being read.
    [None]: a character or a bracket form that is not modelled. *)
Fixpoint parse_pat (s : string) (cur : option (list ascii)) : option (list pat_item) :=
  match s with
  | EmptyString => match cur with None => Some [] | Some _ => None end
  | String c s' =>
      match cur with
      | None =>
          if decide (c = "["%char) then parse_pat s' (Some [])
          else if name_char c then (PLit c ::.) <$> parse_pat s' None
          else None
      | Some cs =>
          if decide (c = "]"%char)
          then match cs with
               | [] => None
               | _ :: _ => (PSet (reverse cs) ::.) <$> parse_pat s' None
               end
          else if alnum_char c then parse_pat s' (Some (c :: cs))
          else None
      end
  end.

Fixpoint pat_matches (p : list pat_item) (name : string) : bool :=
  match p, name with
  | [], EmptyString => true
  | PLit c :: p', String x name' => bool_decide (x = c) && pat_matches p' name'
  | PSet cs :: p', String x name' => bool_decide (x ∈ cs) && pat_matches p' name'
  | _, _ => false
  end.

(** The existing paths, as lists of names, that match the components. *)
Fixpoint expand_in (comps : list (list pat_item)) (n : node) : list (list string) :=
  match comps with
  | [] => [[]]
  | p :: rest =>
      match n with
      | File _ => []
      | Dir es =>
          k ← merge_sort String.le (map_to_list es).*1;
          if pat_matches p k
          then match es !! k with
               | Some sub => (k ::.) <$> expand_in rest sub
               | None => []
               end
          else []
      end
  end.

Definition join_path (comps : list string) : string := String.concat "/" comps.

(** [None]: the word is outside what is modelled. *)
Definition expand_word (w : string) (root : node) : option (list string) :=
  if str_all plain_char w then Some [w]
  else match mapM (λ c, parse_pat c None) (path_of w) with
       | None => None
       | Some comps =>
           match expand_in comps root with
           | [] => Some [w]
           | found => Some (join_path <$> found)
           end
       end.

Definition glob_char (c : ascii) : bool :=
  plain_char c || bool_decide (c ∈ ["["; "]"]%char).

Definition classify_glob (w : string) : option token :=
  if decide (w = ">") then Some TGreat
  else if str_all glob_char w then Some (TWord w)
  else None.

Definition glob_run (programs : string → option program)
    (cmd : string) (root : node) : node * sh_outcome :=
  match mapM classify_glob (filter (λ w, w ≠ "") (str_split " " cmd)) with
  | None => (root, ShOther)
  | Some ts =>
      match parse_simple ts with
      | None => (root, ShSyntaxError)
      | Some c =>
          match mapM (λ w, expand_word w root) (sc_argv c) with
          | None => (root, ShOther)
          | Some words =>
              if forallb simple_path (sc_redirs c)
                 && bool_decide (head (sc_argv c) ∉ Some <$> reserved_words)
              then run_simple programs
                     {| sc_argv := concat words; sc_redirs := sc_redirs c |} root
              else (root, ShOther)
          end
      end
  end.

(** The pathname-expanding shell as the shell of the lines outside the
    fragment of [sh_parse]. *)
Definition sh_glob (programs : string → option program)
    (cmd : string) (root : node) : node :=
  (glob_run programs cmd root).1.

(** An old output [a.out] beside a test whose name is a pattern for it. *)
Definition globbed : gmap string node :=
  list_to_map [("a.out", File "old"); ("a.[o]ut", File "T")].

(** * Properties *)

(** ** Lists *)

Lemma Forall2_impl_elem {A B} (P Q : A → B → Prop) (l : list A) (k : list B) :
  Forall2 P l k → (∀ x y, x ∈ l → P x y → Q x y) → Forall2 Q l k.
Proof.
  induction 1 as [|x y l k Hxy _ IH]; intros HPQ; constructor.
  - apply HPQ; [|done]. apply elem_of_cons. by left.
  - apply IH. intros x' y' Hx'. apply HPQ, elem_of_cons. by right.
Qed.

(** ** Strings *)

Lemma str_app_nil_r (s : string) : s +:+ "" = s.
Proof. induction s as [|c s IH]; [done|]. cbn. by rewrite IH. Qed.

Lemma str_app_assoc (s t u : string) : (s +:+ t) +:+ u = s +:+ t +:+ u.
Proof. induction s as [|c s IH]; [done|]. cbn. by rewrite IH. Qed.

Lemma str_app_length (s t : string) :
  String.length (s +:+ t) = (String.length s + String.length t)%nat.
Proof. induction s as [|c s IH]; [done|]. cbn. by rewrite IH. Qed.

Lemma str_app_inv_tail (s t u : string) : s +:+ u = t +:+ u → s = t.
Proof.
  revert t. induction s as [|c s IH]; intros [|d t] H; cbn in H.
  - done.
  - apply (f_equal String.length) in H. cbn in H. rewrite str_app_length in H. lia.
  - apply (f_equal String.length) in H. cbn in H. rewrite str_app_length in H. lia.
  - injection H as -> H. f_equal. by apply IH.
Qed.

Lemma str_all_app p (s t : string) :
  str_all p (s +:+ t) = str_all p s && str_all p t.
Proof. induction s as [|c s IH]; [done|]. cbn. by rewrite IH, andb_assoc. Qed.

Lemma str_all_impl (p q : ascii → bool) (s : string) :
  (∀ c, p c = true → q c = true) → str_all p s = true → str_all q s = true.
Proof.
  intros Hpq. induction s as [|c s IH]; [done|]. cbn.
  intros [Hc Hs]%andb_true_iff. rewrite (Hpq _ Hc). cbn. auto.
Qed.

Lemma str_split_nonempty sep s : str_split sep s ≠ [].
Proof.
  destruct s as [|c s]; [done|]. cbn.
  destruct (decide (c = sep)); [done|]. by destruct (str_split sep s).
Qed.

Lemma str_split_plain sep w :
  str_all (is_not sep) w = true → str_split sep w = [w].
Proof.
  induction w as [|c w IH]; [done|]. cbn.
  intros [Hc Hw]%andb_true_iff. apply bool_decide_eq_true in Hc.
  rewrite decide_False by done. by rewrite IH.
Qed.

Lemma str_split_app sep w s :
  str_all (is_not sep) w = true →
  str_split sep (w +:+ String sep s) = w :: str_split sep s.
Proof.
  induction w as [|c w IH]; cbn.
  - intros _. by rewrite decide_True.
  - intros [Hc Hw]%andb_true_iff. apply bool_decide_eq_true in Hc.
    rewrite decide_False by done. by rewrite IH.
Qed.

Lemma str_split_singleton sep s w : str_split sep s = [w] → s = w.
Proof.
  revert w. induction s as [|c s IH]; intros w; cbn.
  - by intros [= <-].
  - destruct (decide (c = sep)).
    + intros [= _ H]. by apply str_split_nonempty in H.
    + destruct (str_split sep s) as [|v vs] eqn:E; [by intros [= <-]; apply str_split_nonempty in E|].
      intros [= <- ->]. by rewrite (IH v).
Qed.

Lemma str_prefix_app (s t : string) : String.prefix s (s +:+ t) = true.
Proof.
  induction s as [|c s IH]; cbn; [by destruct t|].
  by destruct (ascii_dec c c).
Qed.

Lemma prefix_char a c f : String.prefix (String a "") (String c f) = bool_decide (a = c).
Proof.
  change (String.prefix (String a "") (String c f))
    with (match ascii_dec a c with left _ => String.prefix "" f | right _ => false end).
  destruct (ascii_dec a c).
  - rewrite bool_decide_eq_true_2 by done. by destruct f.
  - by rewrite bool_decide_eq_false_2.
Qed.

Lemma py_in_prefix needle hay : String.prefix needle hay = true → py_in needle hay = true.
Proof. intros H. destruct hay; cbn -[String.prefix]; by rewrite H. Qed.

(** A substring is found wherever it sits. *)
Lemma py_in_app needle (s t : string) : py_in needle (s +:+ needle +:+ t) = true.
Proof.
  induction s as [|c s IH]; cbn -[String.prefix].
  - apply py_in_prefix, str_prefix_app.
  - rewrite IH. apply orb_true_r.
Qed.

Lemma py_in_suffix needle (s : string) : py_in needle (s +:+ needle) = true.
Proof. pose proof (py_in_app needle s "") as H. by rewrite str_app_nil_r in H. Qed.

(** ** Names free of shell syntax *)

Lemma plain_char_not_space c : plain_char c = true → c ≠ " "%char.
Proof. by intros H ->. Qed.

Lemma plain_name_plain f : plain_name f → str_all plain_char f = true.
Proof. apply str_all_impl. by intros c [? _]%andb_true_iff. Qed.

Lemma plain_name_no_slash f : plain_name f → str_all (is_not "/") f = true.
Proof. apply str_all_impl. by intros c [_ ?]%andb_true_iff. Qed.

Lemma plain_no_space w : str_all plain_char w = true → str_all (is_not " ") w = true.
Proof.
  apply str_all_impl. intros c Hc. apply bool_decide_eq_true.
  by apply plain_char_not_space.
Qed.

(** ** The command line built for an input *)

Lemma pyformat_path a b : pyformat "%s/%s" [a; b] = Some (a +:+ "/" +:+ b).
Proof. cbn. by rewrite str_app_nil_r. Qed.

Lemma pyformat_cmd x y :
  pyformat "krun --search %s > %s.out" [x; y]
  = Some ("krun --search " +:+ x +:+ " > " +:+ y +:+ ".out").
Proof. reflexivity. Qed.

Lemma output_path_split f : output_path f = "tests" +:+ String "/" (out_name f).
Proof. unfold output_path, input_path, out_name. by rewrite !str_app_assoc. Qed.

Lemma input_path_inj f g : input_path f = input_path g → f = g.
Proof. by intros [=]. Qed.

Lemma out_name_inj f g : out_name f = out_name g → f = g.
Proof. apply str_app_inv_tail. Qed.

Lemma output_path_inj f g : output_path f = output_path g → f = g.
Proof. intros H. by apply input_path_inj, (str_app_inv_tail _ _ ".out"). Qed.

Lemma cmd_of_length f :
  String.length (cmd_of f) = (2 * String.length f + 33)%nat.
Proof.
  unfold cmd_of, output_path, input_path. rewrite !str_app_length. cbn. lia.
Qed.

Lemma str_app_inv_head_length (s s' t t' : string) :
  String.length s = String.length s' → s +:+ t = s' +:+ t' → s = s'.
Proof.
  revert s'. induction s as [|c s IH]; intros [|c' s']; cbn; try done.
  intros [= Hl] [= -> H]. f_equal. eauto.
Qed.

(** Distinct inputs get distinct command lines. *)
Lemma cmd_of_inj f g : cmd_of f = cmd_of g → f = g.
Proof.
  intros H. assert (String.length f = String.length g) as Hl.
  { apply (f_equal String.length) in H. rewrite !cmd_of_length in H. lia. }
  unfold cmd_of, input_path in H. cbn in H. injection H as H.
  by apply str_app_inv_head_length in H.
Qed.

Lemma out_name_has_out f : py_in ".out" (out_name f) = true.
Proof. apply py_in_suffix. Qed.

(** ** The shell on the script's command lines *)

Lemma classify_word w :
  w ≠ ">" → str_all plain_char w = true → classify w = Some (TWord w).
Proof. intros Hw Hp. unfold classify. by rewrite decide_False, Hp. Qed.

Lemma input_path_plain f : plain_name f → str_all plain_char (input_path f) = true.
Proof. intros Hf. unfold input_path. cbn. by apply plain_name_plain. Qed.

Lemma output_path_plain f : plain_name f → str_all plain_char (output_path f) = true.
Proof.
  intros Hf. unfold output_path. by rewrite str_all_app, input_path_plain.
Qed.

Lemma words_cmd f :
  plain_name f →
  str_split " " (cmd_of f)
  = ["krun"; "--search"; input_path f; ">"; output_path f].
Proof.
  intros Hf.
  change (cmd_of f) with
    ("krun" +:+ String " " ("--search" +:+ String " " (input_path f +:+
       String " " (">" +:+ String " " (output_path f))))).
  rewrite !str_split_app, str_split_plain; try done.
  - by apply plain_no_space, output_path_plain.
  - by apply plain_no_space, input_path_plain.
Qed.

Lemma tokenize_cmd f :
  plain_name f →
  tokenize (cmd_of f)
  = Some [TWord "krun"; TWord "--search"; TWord (input_path f); TGreat;
          TWord (output_path f)].
Proof.
  intros Hf. unfold tokenize. rewrite words_cmd by done.
  rewrite !filter_cons, filter_nil. rewrite !decide_True by done. cbn [mapM].
  rewrite (classify_word (input_path f)), (classify_word (output_path f));
    auto using input_path_plain, output_path_plain.
Qed.

Lemma out_name_valid f : valid_comp (out_name f) = true.
Proof.
  apply bool_decide_eq_true. unfold out_name.
  repeat split; intros H%(f_equal String.length);
    rewrite str_app_length in H; cbn in H; lia.
Qed.

Lemma path_of_output f : plain_name f → path_of (output_path f) = [TEST_DIR; out_name f].
Proof.
  intros Hf. unfold path_of. rewrite output_path_split, str_split_app by done.
  rewrite str_split_plain; [done|]. unfold out_name.
  by rewrite str_all_app, plain_name_no_slash.
Qed.

Lemma path_of_input f : plain_name f → path_of (input_path f) = [TEST_DIR; f].
Proof.
  intros Hf. unfold path_of, input_path, TEST_DIR.
  change ("tests" +:+ "/" +:+ f) with ("tests" +:+ String "/" f).
  rewrite str_split_app by done. by rewrite str_split_plain by by apply plain_name_no_slash.
Qed.

Lemma sh_parse_cmd f :
  plain_name f →
  sh_parse (cmd_of f)
  = PSimple {| sc_argv := ["krun"; "--search"; input_path f];
               sc_redirs := [output_path f] |}.
Proof.
  intros Hf. unfold sh_parse. rewrite tokenize_cmd by done.
  cbn [parse_simple fmap option_fmap option_map add_word add_redir sc_redirs
       sc_argv forallb].
  unfold simple_path. rewrite path_of_output by done.
  cbn [forallb]. by rewrite out_name_valid.
Qed.

(** ** Writing into the test directory *)

Lemma lookup_tests_inv root d :
  lookup_path [TEST_DIR] root = Some (Dir d) →
  ∃ es, root = with_tests es d ∧ es !! TEST_DIR = Some (Dir d).
Proof.
  destruct root as [|es]; [done|]. cbn.
  destruct (es !! TEST_DIR) as [n|] eqn:E; [|done].
  intros [= ->]. exists es. split; [|done].
  unfold with_tests. by rewrite insert_id.
Qed.

Lemma lookup_with_tests es d : lookup_path [TEST_DIR] (with_tests es d) = Some (Dir d).
Proof. unfold with_tests. cbn. by rewrite lookup_insert_eq. Qed.

Lemma lookup_with_tests_entry es d k :
  lookup_path [TEST_DIR; k] (with_tests es d) = d !! k.
Proof. unfold with_tests. cbn. rewrite lookup_insert_eq. by destruct (d !! k). Qed.

Lemma write_with_tests es d k data :
  write_at [TEST_DIR; k] data (with_tests es d)
  = if is_dir (d !! k) then None
    else Some (with_tests es (<[k := File data]> d)).
Proof.
  unfold with_tests. cbn. rewrite lookup_insert_eq.
  destruct (d !! k) as [[|]|]; cbn; by rewrite ?insert_insert_eq.
Qed.

Lemma read_output es d f :
  plain_name f →
  read_file (output_path f) (with_tests es d)
  = match d !! out_name f with Some (File data) => Some data | _ => None end.
Proof.
  intros Hf. unfold read_file.
  by rewrite path_of_output, lookup_with_tests_entry.
Qed.

Lemma isfile_input es d f :
  plain_name f → isfile (join TEST_DIR f) (with_tests es d) = is_file (d !! f).
Proof.
  intros Hf. unfold isfile.
  assert (join TEST_DIR f = input_path f) as ->.
  { unfold join. destruct f as [|c f]; [done|]. rewrite prefix_char.
    apply plain_name_no_slash in Hf. cbn in Hf.
    apply andb_true_iff in Hf as [Hc%bool_decide_eq_true _].
    by rewrite bool_decide_eq_false_2 by done. }
  by rewrite path_of_input, lookup_with_tests_entry.
Qed.

(** ** One iteration, and the loop *)

Section Facts.

Variable ls_order : gmap string node → list string.
Hypothesis ls_order_perm : ∀ es, ls_order es ≡ₚ (map_to_list es).*1.
Variable programs : string → option program.
Variable sh_other : string → node → node.

Local Abbreviation spawn := (spawn programs).
Local Abbreviation sh := (sh programs sh_other).
Local Abbreviation system := (system programs sh_other).
Local Abbreviation body := (body programs sh_other).
Local Abbreviation run := (run ls_order programs sh_other).
Local Abbreviation inputs := (inputs ls_order).
Local Abbreviation effect := (effect programs).
Local Abbreviation effects := (effects programs).

Lemma body_eq f st : body f st = system (cmd_of f) st.
Proof.
  unfold body, bind, fmt. rewrite pyformat_path. cbn [ret].
  by rewrite pyformat_cmd.
Qed.

Lemma sh_plain es d f :
  plain_name f →
  sh (cmd_of f) (with_tests es d)
  = (with_tests es (effect es d f).1, call_outcome (effect es d f).2).
Proof.
  intros Hf. unfold sh, run_simple, effect, seen.
  rewrite sh_parse_cmd by done.
  cbn [sc_redirs sc_argv open_redirs last].
  rewrite path_of_output by done. rewrite write_with_tests.
  destruct (is_dir (d !! out_name f)) eqn:Hd; [done|].
  destruct (spawn "krun" _ _) as [out status]. cbn [fst snd].
  rewrite write_with_tests, lookup_insert_eq. cbn [is_dir default].
  by rewrite insert_insert_eq.
Qed.

Lemma effect_cmd es d f : call_cmd (effect es d f).2 = cmd_of f.
Proof.
  unfold effect. destruct (is_dir _); [done|]. by destruct (spawn _ _ _).
Qed.

Lemma body_plain es d f cs :
  plain_name f →
  body f {| fs := with_tests es d; calls := cs |}
  = (Ok tt, {| fs := with_tests es (effect es d f).1;
               calls := cs ++ [(effect es d f).2] |}).
Proof.
  intros Hf. rewrite body_eq. unfold system. cbn [fs calls].
  rewrite sh_plain by done. pose proof (effect_cmd es d f) as Hc.
  destruct (effect es d f) as [d' [cmd oc]]. cbn in *. by subst.
Qed.

Lemma for_each_plain l es d cs :
  Forall plain_name l →
  for_each l body {| fs := with_tests es d; calls := cs |}
  = (Ok tt, {| fs := with_tests es (effects es d l).1;
               calls := cs ++ (effects es d l).2 |}).
Proof.
  intros Hl. revert d cs. induction Hl as [|f l Hf Hl IH]; intros d cs.
  - cbn. by rewrite app_nil_r.
  - cbn [for_each effects]. unfold bind. rewrite body_plain by done.
    rewrite IH. cbn [fst snd]. by rewrite <- app_assoc.
Qed.

(** Whatever the names and whatever the shell and the programs do, the
    loop issues one command line per element, in order, and ends. *)
Lemma for_each_cmds l st :
  ∃ st', for_each l body st = (Ok tt, st')
         ∧ call_cmd <$> calls st' = (call_cmd <$> calls st) ++ (cmd_of <$> l).
Proof.
  revert st. induction l as [|f l IH]; intros st.
  - exists st. cbn. by rewrite app_nil_r.
  - cbn [for_each]. unfold bind. rewrite body_eq. unfold system.
    destruct (sh (cmd_of f) (fs st)) as [root' oc].
    destruct (IH {| fs := root'; calls := calls st ++ [Call (cmd_of f) oc] |})
      as (st' & -> & Hc).
    exists st'. split; [done|]. rewrite Hc. cbn [calls].
    rewrite fmap_app, fmap_cons. cbn. by rewrite <- app_assoc.
Qed.

Lemma run_eq root d :
  lookup_path [TEST_DIR] root = Some (Dir d) →
  run root = for_each (inputs root d) body {| fs := root; calls := [] |}.
Proof.
  intros Hd. unfold run, main, files, bind, get_fs, lift, listdir.
  cbn [fs]. change (path_of TEST_DIR) with [TEST_DIR]. by rewrite Hd.
Qed.

Lemma run_raise root :
  is_dir (lookup_path [TEST_DIR] root) = false →
  ∃ e, run root = (Raise e, {| fs := root; calls := [] |}).
Proof.
  intros Hd. unfold run, main, files, bind, get_fs, lift, listdir.
  cbn [fs]. change (path_of TEST_DIR) with [TEST_DIR].
  destruct (lookup_path [TEST_DIR] root) as [[|]|]; eauto. done.
Qed.

(** *** The effect of the loop on the test directory *)

Lemma effect_written es d f :
  is_dir (d !! out_name f) = false →
  ∃ out status,
    spawn "krun" (krun_args f) (seen es d f) = (out, status)
    ∧ effect es d f = (<[out_name f := File out]> d, ran_on f out status).
Proof.
  intros Hd. unfold effect. rewrite Hd.
  destruct (spawn _ _ _) as [out status]. eauto.
Qed.

Lemma effect_refused es d f :
  is_dir (d !! out_name f) = true → effect es d f = (d, redir_failed f).
Proof. intros Hd. unfold effect. by rewrite Hd. Qed.

Lemma effect_lookup_ne es d f k :
  k ≠ out_name f → (effect es d f).1 !! k = d !! k.
Proof.
  intros Hk. unfold effect. destruct (is_dir _); [done|].
  destruct (spawn _ _ _). cbn. by rewrite lookup_insert_ne.
Qed.

Lemma effect_is_dir es d f k :
  is_dir ((effect es d f).1 !! k) = is_dir (d !! k).
Proof.
  unfold effect. destruct (is_dir (d !! out_name f)) eqn:Hd; [done|].
  destruct (spawn _ _ _). cbn. destruct (decide (k = out_name f)) as [->|].
  - by rewrite lookup_insert_eq, Hd.
  - by rewrite lookup_insert_ne.
Qed.

Lemma effect_is_Some es d f k :
  is_Some ((effect es d f).1 !! k) ↔ is_Some (d !! k) ∨ k = out_name f.
Proof.
  unfold effect. destruct (is_dir (d !! out_name f)) eqn:Hd; cbn.
  - split; [auto|]. intros [?| ->]; [done|].
    destruct (d !! out_name f); [eauto|done].
  - destruct (spawn _ _ _). cbn. rewrite lookup_insert_is_Some'.
    split; intros [?|?]; auto.
Qed.

Lemma effects_app es d l1 l2 :
  effects es d (l1 ++ l2)
  = ((effects es (effects es d l1).1 l2).1,
     (effects es d l1).2 ++ (effects es (effects es d l1).1 l2).2).
Proof.
  revert d. induction l1 as [|f l1 IH]; intros d; cbn [effects app fst snd].
  - by destruct (effects es d l2).
  - by rewrite IH.
Qed.

Lemma effects_cons es d f l :
  effects es d (f :: l)
  = ((effects es (effect es d f).1 l).1,
     (effect es d f).2 :: (effects es (effect es d f).1 l).2).
Proof. done. Qed.

Lemma effects_cmds es d l : call_cmd <$> (effects es d l).2 = cmd_of <$> l.
Proof.
  revert d. induction l as [|f l IH]; intros d; [done|].
  rewrite effects_cons. cbn [snd]. by rewrite !fmap_cons, effect_cmd, IH.
Qed.

Lemma effects_lookup_ne es d l k :
  k ∉ out_name <$> l → (effects es d l).1 !! k = d !! k.
Proof.
  revert d. induction l as [|f l IH]; intros d Hk; [done|].
  rewrite fmap_cons, not_elem_of_cons in Hk. destruct Hk as [Hf Hl].
  rewrite effects_cons. cbn [fst]. by rewrite IH, effect_lookup_ne.
Qed.

Lemma effects_is_dir es d l k :
  is_dir ((effects es d l).1 !! k) = is_dir (d !! k).
Proof.
  revert d. induction l as [|f l IH]; intros d; [done|].
  rewrite effects_cons. cbn [fst]. by rewrite IH, effect_is_dir.
Qed.

Lemma effects_is_Some es d l k :
  is_Some ((effects es d l).1 !! k) ↔ is_Some (d !! k) ∨ k ∈ out_name <$> l.
Proof.
  revert d. induction l as [|f l IH]; intros d.
  - cbn. rewrite elem_of_nil. tauto.
  - rewrite effects_cons. cbn [fst].
    rewrite IH, effect_is_Some, fmap_cons, elem_of_cons. tauto.
Qed.

Lemma effects_dom es d l :
  dom (effects es d l).1 = dom d ∪ list_to_set (out_name <$> l).
Proof.
  apply set_eq. intros k.
  rewrite elem_of_union, !elem_of_dom, elem_of_list_to_set.
  apply effects_is_Some.
Qed.

Lemma effects_calls es d l : Forall2 (call_for d) l (effects es d l).2.
Proof.
  revert d. induction l as [|f l IH]; intros d; [constructor|].
  rewrite effects_cons. cbn [snd]. constructor.
  - unfold call_for. destruct (is_dir (d !! out_name f)) eqn:Hd.
    + by rewrite effect_refused.
    + destruct (effect_written es d f Hd) as (out & status & _ & ->). eauto.
  - eapply Forall2_impl; [apply IH|]. intros g c. unfold call_for.
    by rewrite effect_is_dir.
Qed.

(** Where the name [f] comes once in the list, the output file holds at the
    end what [krun] printed when it ran on [f]. *)
Lemma effects_input es d l f :
  NoDup l → f ∈ l → is_dir (d !! out_name f) = false →
  ∃ d1 cs1 cs2 out status,
    spawn "krun" (krun_args f) (seen es d1 f) = (out, status)
    ∧ (effects es d l).2 = cs1 ++ ran_on f out status :: cs2
    ∧ (cmd_of f ∉ call_cmd <$> (cs1 ++ cs2))
    ∧ (effects es d l).1 !! out_name f = Some (File out).
Proof.
  intros Hnd Hf Hd. apply list_elem_of_split in Hf as (l1 & l2 & ->).
  apply NoDup_app in Hnd as (_ & Hl1 & [Hl2 _]%NoDup_cons).
  specialize (Hl1 f).
  rewrite effects_app, effects_cons. cbn [fst snd].
  set (d1 := (effects es d l1).1).
  assert (is_dir (d1 !! out_name f) = false) as Hd1.
  { unfold d1. by rewrite effects_is_dir. }
  destruct (effect_written es d1 f Hd1) as (out & status & Hrun & ->).
  cbn [fst snd]. eexists d1, _, _, out, status. repeat split; [done|..].
  - rewrite fmap_app, !effects_cmds, <- fmap_app.
    intros (g & Hg%cmd_of_inj & Hin)%list_elem_of_fmap. subst g.
    apply elem_of_app in Hin as [Hin|Hin]; [|done].
    apply Hl1; [done|]. apply elem_of_cons. by left.
  - rewrite effects_lookup_ne, lookup_insert_eq; [done|].
    intros (g & Hg%out_name_inj & Hin)%list_elem_of_fmap. by subst g.
Qed.

(** *** The selected inputs *)

Lemma elem_of_ls_order (d : gmap string node) g : g ∈ ls_order d ↔ is_Some (d !! g).
Proof.
  rewrite (ls_order_perm d), list_elem_of_fmap. split.
  - intros ([k n] & -> & Hkn%elem_of_map_to_list). eauto.
  - intros [n Hn]. exists (g, n). by rewrite elem_of_map_to_list.
Qed.

Lemma NoDup_ls_order (d : gmap string node) : NoDup (ls_order d).
Proof. rewrite (ls_order_perm d). apply NoDup_fst_map_to_list. Qed.

Lemma elem_of_inputs root d g :
  g ∈ inputs root d ↔ qualifies root g ∧ is_Some (d !! g).
Proof. unfold inputs. by rewrite list_elem_of_filter, elem_of_ls_order. Qed.

Lemma NoDup_inputs root d : NoDup (inputs root d).
Proof. apply NoDup_filter, NoDup_ls_order. Qed.

Lemma inputs_no_out root d g : g ∈ inputs root d → py_in ".out" g = false.
Proof. unfold inputs. rewrite list_elem_of_filter. by intros [[_ ?] _]. Qed.

(** A regular file of the test directory with a plain name without [.out]
    is selected. *)
Lemma plain_input es d f :
  plain_name f → is_file (d !! f) = true → py_in ".out" f = false →
  f ∈ inputs (with_tests es d) d.
Proof.
  intros Hf Hfile Hout. apply elem_of_inputs. split.
  - split; [|done]. by rewrite isfile_input.
  - by destruct (d !! f).
Qed.

Lemma run_plain es d :
  Forall plain_name (inputs (with_tests es d) d) →
  run (with_tests es d)
  = (Ok tt, {| fs := with_tests es (effects es d (inputs (with_tests es d) d)).1;
               calls := (effects es d (inputs (with_tests es d) d)).2 |}).
Proof.
  intros Hp. rewrite (run_eq _ d) by apply lookup_with_tests.
  by rewrite for_each_plain.
Qed.

(** The run on one selected input: the call, what [krun] saw and printed,
    and the output file at the end. *)
Lemma run_input root d f :
  lookup_path [TEST_DIR] root = Some (Dir d) →
  Forall plain_name (inputs root d) →
  plain_name f → is_file (d !! f) = true → py_in ".out" f = false →
  is_dir (d !! out_name f) = false →
  ∃ st' tree cs1 cs2 out status,
    run root = (Ok tt, st')
    ∧ spawn "krun" (krun_args f) tree = (out, status)
    ∧ read_file (output_path f) tree = Some ""
    ∧ calls st' = cs1 ++ ran_on f out status :: cs2
    ∧ (cmd_of f ∉ call_cmd <$> (cs1 ++ cs2))
    ∧ read_file (output_path f) (fs st') = Some out.
Proof.
  intros (es & -> & Hes)%lookup_tests_inv Hp Hf Hfile Hout Hd.
  destruct (effects_input es d (inputs (with_tests es d) d) f)
    as (d1 & cs1 & cs2 & out & status & Hrun & Hcs & Hnot & Hlook);
    auto using NoDup_inputs, plain_input.
  eexists _, (seen es d1 f), cs1, cs2, out, status.
  split; [by apply run_plain|]. cbn [fs calls]. repeat split; try done.
  - unfold seen. by rewrite read_output, lookup_insert_eq.
  - by rewrite read_output, Hlook.
Qed.

(** *** A second run *)

Lemma effect_lookup_dir es d f k :
  is_dir (d !! k) = true → (effect es d f).1 !! k = d !! k.
Proof.
  intros Hk. unfold effect. destruct (is_dir (d !! out_name f)) eqn:Hd; [done|].
  destruct (spawn _ _ _). cbn. rewrite lookup_insert_ne; [done|].
  intros <-. congruence.
Qed.

Lemma effects_lookup_dir es d l k :
  is_dir (d !! k) = true → (effects es d l).1 !! k = d !! k.
Proof.
  revert d. induction l as [|f l IH]; intros d Hk; [done|].
  rewrite effects_cons. cbn [fst].
  rewrite IH by by rewrite effect_is_dir. by apply effect_lookup_dir.
Qed.

Lemma effects_lookup_no_out es d l k :
  py_in ".out" k = false → (effects es d l).1 !! k = d !! k.
Proof.
  intros Hk. apply effects_lookup_ne.
  intros (f & -> & _)%list_elem_of_fmap. by rewrite out_name_has_out in Hk.
Qed.

Lemma join_tests g :
  String.prefix "/" g = false → join TEST_DIR g = "tests" +:+ String "/" g.
Proof. intros Hg. unfold join. by rewrite Hg. Qed.

Lemma path_of_join_entry g k : path_of (join TEST_DIR g) = [TEST_DIR; k] → g = k.
Proof.
  destruct (String.prefix "/" g) eqn:Hg.
  - unfold join, path_of. rewrite Hg. destruct g as [|c g]; [done|].
    rewrite prefix_char in Hg. apply bool_decide_eq_true in Hg as <-.
    cbn. by rewrite decide_True.
  - rewrite join_tests by done. unfold path_of.
    rewrite str_split_app by done. intros [= H]. by apply str_split_singleton in H.
Qed.

(** The loop leaves [isfile] as it was on names without [.out]. *)
Lemma isfile_frame es d d' g :
  (∀ k, py_in ".out" k = false → d' !! k = d !! k) →
  (∀ k, is_dir (d !! k) = true → d' !! k = d !! k) →
  (∀ k, is_dir (d' !! k) = is_dir (d !! k)) →
  py_in ".out" g = false →
  isfile (join TEST_DIR g) (with_tests es d')
  = isfile (join TEST_DIR g) (with_tests es d).
Proof.
  intros Hkeep Hdir Hkind Hg. unfold isfile, with_tests.
  destruct (path_of (join TEST_DIR g)) as [|c [|k rest]] eqn:E;
    cbn [lookup_path]; [done|..];
    (destruct (decide (c = TEST_DIR)) as [->|Hc];
      [rewrite !lookup_insert_eq|by rewrite !lookup_insert_ne by done]);
    [done|].
  destruct (py_in ".out" k) eqn:Hk; [|by rewrite Hkeep].
  destruct (is_dir (d !! k)) eqn:Hdk; [by rewrite Hdir|].
  specialize (Hkind k). rewrite Hdk in Hkind.
  destruct rest as [|x rest].
  - apply path_of_join_entry in E. congruence.
  - by destruct (d' !! k) as [[|]|], (d !! k) as [[|]|].
Qed.

Lemma inputs_after es d l :
  inputs (with_tests es (effects es d l).1) (effects es d l).1
  ≡ₚ inputs (with_tests es d) d.
Proof.
  apply NoDup_Permutation; [apply NoDup_inputs..|]. intros g.
  rewrite !elem_of_inputs. unfold qualifies.
  split; intros [[Hfile Hout] Hsome].
  - rewrite effects_lookup_no_out in Hsome by done.
    rewrite (isfile_frame es d) in Hfile;
      auto using effects_lookup_no_out, effects_lookup_dir, effects_is_dir.
  - rewrite effects_lookup_no_out by done.
    rewrite (isfile_frame es d);
      auto using effects_lookup_no_out, effects_lookup_dir, effects_is_dir.
Qed.

Lemma effects_is_file es d l f :
  f ∈ l → is_dir (d !! out_name f) = false →
  is_file ((effects es d l).1 !! out_name f) = true.
Proof.
  intros Hf Hd.
  assert (is_Some ((effects es d l).1 !! out_name f)) as [n Hn].
  { apply effects_is_Some. right. by apply list_elem_of_fmap_2. }
  pose proof (effects_is_dir es d l (out_name f)) as Hk.
  rewrite Hn, Hd in Hk. rewrite Hn. by destruct n.
Qed.

(** Whatever the tree holds, a run that finds its directory ends normally
    and has issued the command lines of the selected inputs, in order. *)
Lemma run_cmds root d :
  lookup_path [TEST_DIR] root = Some (Dir d) →
  ∃ st', run root = (Ok tt, st')
         ∧ call_cmd <$> calls st' = cmd_of <$> inputs root d.
Proof.
  intros Hd. rewrite (run_eq _ d) by done.
  destruct (for_each_cmds (inputs root d) {| fs := root; calls := [] |})
    as (st' & Hrun & Hc).
  by exists st'.
Qed.

Lemma run_cmds_no_out root f :
  py_in ".out" f = true → cmd_of f ∉ call_cmd <$> calls (run root).2.
Proof.
  intros Hf. destruct (lookup_path [TEST_DIR] root) as [[|d]|] eqn:Hd.
  - destruct (run_raise root) as [e ->]; [by rewrite Hd|]. cbn. apply not_elem_of_nil.
  - destruct (run_cmds root d Hd) as (st' & -> & Hc). cbn [snd]. rewrite Hc.
    intros (g & ->%cmd_of_inj & Hg%inputs_no_out)%list_elem_of_fmap. congruence.
  - destruct (run_raise root) as [e ->]; [by rewrite Hd|]. cbn. apply not_elem_of_nil.
Qed.

(** ** The claims *)

(** C1, as amended.  Let every name the script selects be plain, and let [f]
    be such a name: a regular file of the test directory, without [.out].
    If no directory is in the place of [f]'s output file, then the run ends
    normally, it has called [krun --search tests/f > tests/f.out], and the
    file [tests/f.out] holds at the end what that [krun] printed. *)
Theorem output_file_holds_stdout root d f :
  lookup_path [TEST_DIR] root = Some (Dir d) →
  Forall plain_name (inputs root d) →
  plain_name f → is_file (d !! f) = true → py_in ".out" f = false →
  is_dir (d !! out_name f) = false →
  ∃ st' tree out status,
    run root = (Ok tt, st')
    ∧ ran_on f out status ∈ calls st'
    ∧ spawn "krun" (krun_args f) tree = (out, status)
    ∧ read_file (output_path f) (fs st') = Some out.
Proof.
  intros Hd Hp Hf Hfile Hout Hdir.
  destruct (run_input root d f Hd Hp Hf Hfile Hout Hdir)
    as (st' & tree & cs1 & cs2 & out & status & Hrun & Hsp & _ & Hcs & _ & Hread).
  exists st', tree, out, status. repeat split; try done.
  rewrite Hcs. apply elem_of_app. right. apply elem_of_cons. by left.
Qed.

(** C2, as amended.  A name [f] that contains [.out] gets no command line
    from the script, whatever the tree, the shell and the programs are.  And
    where every selected name is plain, each call of the run is the call of
    a selected name other than [f], in which the shell runs [krun] on that
    name's path or, the redirection failing, runs nothing: no program run
    during the run has [tests/f] among its arguments. *)
Theorem out_files_never_input root f :
  py_in ".out" f = true →
  (cmd_of f ∉ call_cmd <$> calls (run root).2)
  ∧ (∀ d, lookup_path [TEST_DIR] root = Some (Dir d) →
          Forall plain_name (inputs root d) →
          Forall (λ c, ∃ g, g ∈ inputs root d ∧ g ≠ f
                        ∧ (c = redir_failed g ∨ ∃ out status, c = ran_on g out status))
            (calls (run root).2)
          ∧ ∀ c i, c ∈ calls (run root).2 → call_outcome c = ShRan i →
                   input_path f ∉ inv_argv i).
Proof.
  intros Hf. split; [by apply run_cmds_no_out|].
  intros d (es & -> & Hes)%lookup_tests_inv Hp.
  rewrite run_plain by done. cbn [snd calls].
  assert (∀ c, c ∈ (effects es d (inputs (with_tests es d) d)).2 →
            ∃ g, g ∈ inputs (with_tests es d) d ∧ g ≠ f
                 ∧ (c = redir_failed g ∨ ∃ out status, c = ran_on g out status))
    as Hcalls.
  { intros c [n Hn]%list_elem_of_lookup.
    destruct (Forall2_lookup_r _ _ _ _ _ (effects_calls es d _) Hn)
      as (g & Hg%list_elem_of_lookup_2 & Hfor).
    exists g. split; [done|]. split.
    - intros ->. apply inputs_no_out in Hg. congruence.
    - unfold call_for in Hfor. destruct (is_dir _); auto. }
  split; [by apply Forall_forall|].
  intros c i (g & _ & Hgf & Hc)%Hcalls Hi.
  destruct Hc as [->|(out & status & ->)]; [discriminate|].
  injection Hi as <-. cbn [inv_argv]. unfold krun_args.
  rewrite !elem_of_cons, elem_of_nil.
  intros [?|[?|[Hfg%input_path_inj|[]]]]; [done..|]. congruence.
Qed.

(** C3, as amended.  Let every selected name be plain and let no directory
    be in the place of an output file.  Then the run makes one call per
    selected input, each running [krun] into the input's path followed by
    [.out]; these output paths are pairwise distinct; at the end the test
    directory holds its former names and one regular file [f.out] per input
    [f], and every other entry is as before. *)
Theorem one_output_per_input root d :
  lookup_path [TEST_DIR] root = Some (Dir d) →
  Forall plain_name (inputs root d) →
  Forall (λ f, is_dir (d !! out_name f) = false) (inputs root d) →
  ∃ st' d',
    run root = (Ok tt, st')
    ∧ lookup_path [TEST_DIR] (fs st') = Some (Dir d')
    ∧ Forall2 (λ f c, ∃ out status, c = ran_on f out status)
        (inputs root d) (calls st')
    ∧ NoDup (output_path <$> inputs root d)
    ∧ dom d' = dom d ∪ list_to_set (out_name <$> inputs root d)
    ∧ (∀ f, f ∈ inputs root d → is_file (d' !! out_name f) = true)
    ∧ (∀ k, k ∉ out_name <$> inputs root d → d' !! k = d !! k).
Proof.
  intros (es & -> & Hes)%lookup_tests_inv Hp Hdirs.
  set (l := inputs (with_tests es d) d) in *.
  exists {| fs := with_tests es (effects es d l).1; calls := (effects es d l).2 |},
    (effects es d l).1.
  split; [by apply run_plain|]. cbn [fs calls].
  split; [apply lookup_with_tests|].
  split.
  { pose proof (effects_calls es d l) as Hc.
    eapply Forall2_impl_elem; [apply Hc|]. intros g c Hg Hfor.
    rewrite Forall_forall in Hdirs. unfold call_for in Hfor.
    by rewrite (Hdirs g Hg) in Hfor. }
  split.
  { apply NoDup_fmap_2; [|apply NoDup_inputs]. intros g h. apply output_path_inj. }
  split; [apply effects_dom|].
  split.
  - intros g Hg. rewrite Forall_forall in Hdirs. apply effects_is_file; auto.
  - intros k Hk. by apply effects_lookup_ne.
Qed.

(** C4, as amended.  Let every selected name be plain.  Then a run followed
    by a second run in the tree the first one left both end normally; the
    second changes nothing outside the test directory and leaves in it the
    very names the first run left, no [.out.out] name among the new ones;
    and for every selected input [f] whose output file is not barred by a
    directory, the second run calls [krun] on [f] again and [tests/f.out]
    holds at the end what this second [krun] printed. *)
Theorem second_run_same_names root d :
  lookup_path [TEST_DIR] root = Some (Dir d) →
  Forall plain_name (inputs root d) →
  ∃ st1 st2 es d1 d2,
    run root = (Ok tt, st1)
    ∧ run (fs st1) = (Ok tt, st2)
    ∧ fs st1 = with_tests es d1
    ∧ fs st2 = with_tests es d2
    ∧ dom d2 = dom d1
    ∧ (∀ k, out_name (out_name k) ∈ dom d2 → out_name (out_name k) ∈ dom d)
    ∧ (∀ f, f ∈ inputs root d → is_dir (d !! out_name f) = false →
         ∃ out1 out2 status2,
           read_file (output_path f) (fs st1) = Some out1
           ∧ ran_on f out2 status2 ∈ calls st2
           ∧ read_file (output_path f) (fs st2) = Some out2).
Proof.
  intros (es & -> & Hes)%lookup_tests_inv Hp.
  set (l := inputs (with_tests es d) d) in *.
  set (d1 := (effects es d l).1).
  set (l1 := inputs (with_tests es d1) d1).
  assert (l1 ≡ₚ l) as Hperm by apply inputs_after.
  assert (Forall plain_name l1) as Hp1 by by rewrite Hperm.
  set (d2 := (effects es d1 l1).1).
  assert (dom d2 = dom d1) as Hdom.
  { unfold d2, d1. rewrite !effects_dom. fold d1.
    apply set_eq. intros k. rewrite !elem_of_union, !elem_of_list_to_set.
    rewrite Hperm. tauto. }
  exists {| fs := with_tests es d1; calls := (effects es d l).2 |},
    {| fs := with_tests es d2; calls := (effects es d1 l1).2 |}, es, d1, d2.
  split; [by apply run_plain|]. cbn [fs calls].
  split; [by apply run_plain|].
  do 3 (split; [done|]). split.
  - intros k. rewrite Hdom. unfold d1.
    rewrite effects_dom, elem_of_union, elem_of_list_to_set.
    intros [?|(g & <-%out_name_inj & Hg%inputs_no_out)%list_elem_of_fmap]; [done|].
    by rewrite out_name_has_out in Hg.
  - intros f Hf Hdir.
    assert (plain_name f) as Hpf by by eapply Forall_forall in Hp.
    destruct (effects_input es d l f) as (? & _ & _ & out1 & _ & _ & _ & _ & Hl1);
      [apply NoDup_inputs|done..|].
    destruct (effects_input es d1 l1 f)
      as (? & cs1 & cs2 & out2 & status2 & _ & Hcs & _ & Hl2).
    { apply NoDup_inputs. }
    { by rewrite Hperm. }
    { unfold d1. by rewrite effects_is_dir. }
    exists out1, out2, status2. rewrite !read_output by done.
    fold d1 in Hl1. fold d2 in Hl2. rewrite Hl1, Hl2, Hcs.
    repeat split. apply elem_of_app. right. apply elem_of_cons. by left.
Qed.

(** C5, as amended.  Under the conditions of C1, the run makes exactly one
    call with [f]'s command line; in it the shell runs [krun] with the two
    arguments [--search] and [tests/f], its standard output going to
    [tests/f.out] and nowhere else; and [tests/f.out] holds at the end what
    that [krun] printed, unchanged. *)
Theorem krun_invoked_on_input_path root d f :
  lookup_path [TEST_DIR] root = Some (Dir d) →
  Forall plain_name (inputs root d) →
  plain_name f → is_file (d !! f) = true → py_in ".out" f = false →
  is_dir (d !! out_name f) = false →
  ∃ st' tree cs1 cs2 i,
    run root = (Ok tt, st')
    ∧ calls st' = cs1 ++ {| call_cmd := cmd_of f; call_outcome := ShRan i |} :: cs2
    ∧ (cmd_of f ∉ call_cmd <$> (cs1 ++ cs2))
    ∧ inv_argv i = ["krun"; "--search"; input_path f]
    ∧ inv_stdout i = Some (output_path f)
    ∧ spawn "krun" ["--search"; input_path f] tree = (inv_output i, inv_status i)
    ∧ read_file (output_path f) (fs st') = Some (inv_output i).
Proof.
  intros Hd Hp Hf Hfile Hout Hdir.
  destruct (run_input root d f Hd Hp Hf Hfile Hout Hdir)
    as (st' & tree & cs1 & cs2 & out & status & Hrun & Hsp & _ & Hcs & Hnot & Hread).
  by eexists st', tree, cs1, cs2, _.
Qed.

(** C6.  When [tests] is missing from the working directory, or is not a
    directory, the run raises the error of [os.listdir] with the tree as it
    was and without a single call to the shell. *)
Theorem missing_directory_raises root :
  is_dir (lookup_path [TEST_DIR] root) = false →
  run root
  = (Raise (match lookup_path [TEST_DIR] root with
            | Some _ => NotADirectoryError
            | None => FileNotFoundError
            end),
     {| fs := root; calls := [] |}).
Proof.
  intros Hd. unfold run, main, files, bind, get_fs, lift, listdir.
  cbn [fs]. change (path_of TEST_DIR) with [TEST_DIR].
  by destruct (lookup_path [TEST_DIR] root) as [[|]|].
Qed.

(** C7.  Whatever the programs are ([krun] absent, or exiting with any
    status) and whatever the shell makes of a command line, a run that finds
    its directory ends without an exception, and after the call made for any
    selected input come the calls for all the inputs selected after it. *)
Theorem failures_do_not_stop_the_loop root d :
  lookup_path [TEST_DIR] root = Some (Dir d) →
  ∃ st',
    run root = (Ok tt, st')
    ∧ ∀ l1 f l2, inputs root d = l1 ++ f :: l2 →
        ∃ cs1 c cs2,
          calls st' = cs1 ++ c :: cs2
          ∧ call_cmd <$> cs1 = cmd_of <$> l1
          ∧ call_cmd c = cmd_of f
          ∧ call_cmd <$> cs2 = cmd_of <$> l2.
Proof.
  intros Hd. destruct (run_cmds root d Hd) as (st' & Hrun & Hc).
  exists st'. split; [done|]. intros l1 f l2 Hl.
  rewrite Hl, fmap_app, fmap_cons in Hc.
  apply fmap_app_inv in Hc as (cs1 & cs & H1 & H2 & ->).
  symmetry in H2. apply fmap_cons_inv in H2 as (c & cs2 & Hcf & H2 & ->).
  by exists cs1, c, cs2.
Qed.

(** C8.  The command lines of a run are those of the names selected in the
    tree as it was when the run started, in the order of that one listing,
    whatever the calls do to the tree meanwhile; a name that was not in the
    test directory at the start gets no command line in this run. *)
Theorem inputs_fixed_before_first_call root d :
  lookup_path [TEST_DIR] root = Some (Dir d) →
  ∃ st',
    run root = (Ok tt, st')
    ∧ call_cmd <$> calls st' = cmd_of <$> filter (qualifies root) (ls_order d)
    ∧ ∀ g, d !! g = None → cmd_of g ∉ call_cmd <$> calls st'.
Proof.
  intros Hd. destruct (run_cmds root d Hd) as (st' & Hrun & Hc).
  exists st'. repeat split; [done..|]. intros g Hg. rewrite Hc.
  intros (h & ->%cmd_of_inj & [_ Hh]%elem_of_inputs)%list_elem_of_fmap.
  rewrite Hg in Hh. by destruct Hh.
Qed.

(** C9, as amended.  Under the conditions of C1 and whatever [krun] is, the
    command starts with [tests/f.out] already there and empty, and
    [tests/f.out] is a regular file at the end, holding what the command
    printed; when [krun] is not found that is nothing, with status 127. *)
Theorem output_created_before_command_runs root d f :
  lookup_path [TEST_DIR] root = Some (Dir d) →
  Forall plain_name (inputs root d) →
  plain_name f → is_file (d !! f) = true → py_in ".out" f = false →
  is_dir (d !! out_name f) = false →
  ∃ st' tree out status,
    run root = (Ok tt, st')
    ∧ read_file (output_path f) tree = Some ""
    ∧ spawn "krun" (krun_args f) tree = (out, status)
    ∧ read_file (output_path f) (fs st') = Some out
    ∧ (programs "krun" = None → out = "" ∧ status = 127).
Proof.
  intros Hd Hp Hf Hfile Hout Hdir.
  destruct (run_input root d f Hd Hp Hf Hfile Hout Hdir)
    as (st' & tree & cs1 & cs2 & out & status & Hrun & Hsp & Htree & _ & _ & Hread).
  exists st', tree, out, status. do 4 (split; [done|]).
  intros Hnone. unfold spawn in Hsp. rewrite Hnone in Hsp.
  by injection Hsp as <- <-.
Qed.

End Facts.

(** C10.  The name [a b] has a space, and its command line is read by the
    shell as [krun] with the arguments [--search], [tests/a], [b] and
    [b.out], redirected to [tests/a]: the loop body hands the shell the line
    with the name pasted in as it is, and whatever the programs and the tree,
    the call either fails to open [tests/a] or runs [krun] with these
    arguments and this redirection.  Neither the argument after [--search]
    nor the redirection is the path the script built. *)
Theorem unquoted_name_is_split :
  py_in " " "a b" = true
  ∧ (∀ programs sh_other st,
       body programs sh_other "a b" st
       = system programs sh_other "krun --search tests/a b > tests/a b.out" st)
  ∧ sh_parse (cmd_of "a b")
    = PSimple {| sc_argv := ["krun"; "--search"; "tests/a"; "b"; "b.out"];
                 sc_redirs := ["tests/a"] |}
  ∧ (∀ programs sh_other root,
       (sh programs sh_other (cmd_of "a b") root).2 = ShRedirError "tests/a"
       ∨ ∃ out status,
           (sh programs sh_other (cmd_of "a b") root).2
           = ShRan {| inv_argv := ["krun"; "--search"; "tests/a"; "b"; "b.out"];
                      inv_stdout := Some "tests/a";
                      inv_output := out;
                      inv_status := status |})
  ∧ "tests/a" ≠ input_path "a b"
  ∧ "tests/a" ≠ output_path "a b".
Proof.
  assert (sh_parse (cmd_of "a b")
          = PSimple {| sc_argv := ["krun"; "--search"; "tests/a"; "b"; "b.out"];
                       sc_redirs := ["tests/a"] |}) as Hparse by by vm_compute.
  split; [done|]. split; [intros; apply body_eq|].
  split; [done|]. split; [|done].
  intros programs sh_other root. unfold sh. rewrite Hparse.
  unfold run_simple. cbn [sc_redirs sc_argv open_redirs last].
  destruct (write_at (path_of "tests/a") "" root) as [root1|]; [|by left].
  cbn [open_redirs]. destruct (spawn programs "krun" _ root1) as [out status].
  right. by exists out, status.
Qed.

(** ** The claims on sample trees *)

Lemma listing_perm es : listing es ≡ₚ (map_to_list es).*1.
Proof. done. Qed.

(** C1 on a directory with two tests and an old output file. *)
Lemma output_file_holds_stdout_witness :
  ∃ st' tree out status,
    run listing only_krun sh_ignore (tree_of two_tests) = (Ok tt, st')
    ∧ ran_on "a.test" out status ∈ calls st'
    ∧ spawn only_krun "krun" (krun_args "a.test") tree = (out, status)
    ∧ read_file (output_path "a.test") (fs st') = Some out.
Proof.
  apply (output_file_holds_stdout listing listing_perm only_krun sh_ignore
           (tree_of two_tests) two_tests "a.test").
  - reflexivity.
  - vm_compute. repeat constructor.
  - reflexivity.
  - reflexivity.
  - reflexivity.
  - reflexivity.
Defined.

(** C1 as first stated fails on a name with a space: the shell splits the
    path, the output lands in [tests/a] and no file [tests/a b.out] comes to
    be. *)
Lemma spaced_input_gets_no_output_file :
  is_file (spaced !! "a b") = true
  ∧ py_in ".out" "a b" = false
  ∧ ∃ st',
      run listing only_krun sh_ignore (tree_of spaced) = (Ok tt, st')
      ∧ read_file (output_path "a b") (fs st') = None
      ∧ read_file "tests/a" (fs st') = Some "ran --search tests/a b b.out".
Proof. do 2 (split; [reflexivity|]). eexists. by vm_compute. Qed.

(** C2 on the old output file [a.test.out]. *)
Lemma out_files_never_input_witness :
  (cmd_of "a.test.out"
     ∉ call_cmd <$> calls (run listing only_krun sh_ignore (tree_of two_tests)).2)
  ∧ (∀ d, lookup_path [TEST_DIR] (tree_of two_tests) = Some (Dir d) →
          Forall plain_name (inputs listing (tree_of two_tests) d) →
          Forall (λ c, ∃ g, g ∈ inputs listing (tree_of two_tests) d
                        ∧ g ≠ "a.test.out"
                        ∧ (c = redir_failed g ∨ ∃ out status, c = ran_on g out status))
            (calls (run listing only_krun sh_ignore (tree_of two_tests)).2)
          ∧ ∀ c i, c ∈ calls (run listing only_krun sh_ignore (tree_of two_tests)).2 →
                   call_outcome c = ShRan i →
                   input_path "a.test.out" ∉ inv_argv i).
Proof.
  apply (out_files_never_input listing only_krun sh_ignore (tree_of two_tests)
           "a.test.out").
  reflexivity.
Defined.

(** C2 as first stated fails where a selected name is a pattern for an old
    output: [a.[o]ut] has no [.out] in it and is selected, its line is
    outside the fragment of [sh_parse], and the shell that expands
    pathnames runs [krun] on [tests/a.out], the path of a file whose name
    contains [.out]; what [krun] printed for it is in [tests/a.[o]ut.out]
    at the end of the run. *)
Lemma pattern_name_runs_krun_on_old_output :
  is_file (globbed !! "a.out") = true
  ∧ py_in ".out" "a.out" = true
  ∧ inputs listing (tree_of globbed) globbed = ["a.[o]ut"]
  ∧ sh_parse (cmd_of "a.[o]ut") = POther
  ∧ (glob_run only_krun (cmd_of "a.[o]ut") (tree_of globbed)).2
    = ShRan {| inv_argv := ["krun"; "--search"; input_path "a.out"];
               inv_stdout := Some "tests/a.[o]ut.out";
               inv_output := "ran --search tests/a.out";
               inv_status := 0 |}
  ∧ ∃ st',
      run listing only_krun (sh_glob only_krun) (tree_of globbed) = (Ok tt, st')
      ∧ call_cmd <$> calls st' = ["krun --search tests/a.[o]ut > tests/a.[o]ut.out"]
      ∧ read_file "tests/a.[o]ut.out" (fs st') = Some "ran --search tests/a.out".
Proof. do 5 (split; [by vm_compute|]). eexists. by vm_compute. Qed.

(** C3 on the directory with two tests. *)
Lemma one_output_per_input_witness :
  ∃ st' d',
    run listing only_krun sh_ignore (tree_of two_tests) = (Ok tt, st')
    ∧ lookup_path [TEST_DIR] (fs st') = Some (Dir d')
    ∧ Forall2 (λ f c, ∃ out status, c = ran_on f out status)
        (inputs listing (tree_of two_tests) two_tests) (calls st')
    ∧ NoDup (output_path <$> inputs listing (tree_of two_tests) two_tests)
    ∧ dom d' = dom two_tests
               ∪ list_to_set (out_name <$> inputs listing (tree_of two_tests) two_tests)
    ∧ (∀ f, f ∈ inputs listing (tree_of two_tests) two_tests →
            is_file (d' !! out_name f) = true)
    ∧ (∀ k, k ∉ out_name <$> inputs listing (tree_of two_tests) two_tests →
            d' !! k = two_tests !! k).
Proof.
  apply (one_output_per_input listing listing_perm only_krun sh_ignore
           (tree_of two_tests) two_tests).
  - reflexivity.
  - vm_compute. repeat constructor.
  - vm_compute. repeat constructor.
Defined.

(** C3 as first stated fails on the spaced name: the only file the run
    makes is [a], and the input has no output file of its name. *)
Lemma spaced_input_has_zero_outputs :
  inputs listing (tree_of spaced) spaced = ["a b"]
  ∧ ∃ st' d',
      run listing only_krun sh_ignore (tree_of spaced) = (Ok tt, st')
      ∧ lookup_path [TEST_DIR] (fs st') = Some (Dir d')
      ∧ d' !! out_name "a b" = None
      ∧ (map_to_list d').*1 = ["a b"; "a"].
Proof. split; [reflexivity|]. do 2 eexists. by vm_compute. Qed.

(** C4 on the directory with two tests. *)
Lemma second_run_same_names_witness :
  ∃ st1 st2 es d1 d2,
    run listing only_krun sh_ignore (tree_of two_tests) = (Ok tt, st1)
    ∧ run listing only_krun sh_ignore (fs st1) = (Ok tt, st2)
    ∧ fs st1 = with_tests es d1
    ∧ fs st2 = with_tests es d2
    ∧ dom d2 = dom d1
    ∧ (∀ k, out_name (out_name k) ∈ dom d2 → out_name (out_name k) ∈ dom two_tests)
    ∧ (∀ f, f ∈ inputs listing (tree_of two_tests) two_tests →
            is_dir (two_tests !! out_name f) = false →
            ∃ out1 out2 status2,
              read_file (output_path f) (fs st1) = Some out1
              ∧ ran_on f out2 status2 ∈ calls st2
              ∧ read_file (output_path f) (fs st2) = Some out2).
Proof.
  apply (second_run_same_names listing listing_perm only_krun sh_ignore
           (tree_of two_tests) two_tests).
  - reflexivity.
  - vm_compute. repeat constructor.
Defined.

(** C4 as first stated fails on the spaced name: the first run makes
    [tests/a], which the second run selects as an input of its own, and a
    file [a.out] is there after two runs that was not there after one. *)
Lemma spaced_second_run_adds_a_file :
  ∃ st1 st2 d1 d2,
    run listing only_krun sh_ignore (tree_of spaced) = (Ok tt, st1)
    ∧ run listing only_krun sh_ignore (fs st1) = (Ok tt, st2)
    ∧ lookup_path [TEST_DIR] (fs st1) = Some (Dir d1)
    ∧ lookup_path [TEST_DIR] (fs st2) = Some (Dir d2)
    ∧ (map_to_list d1).*1 = ["a b"; "a"]
    ∧ (map_to_list d2).*1 = ["a.out"; "a b"; "a"]
    ∧ call_cmd <$> calls st2 = [cmd_of "a b"; cmd_of "a"].
Proof. do 4 eexists. by vm_compute. Qed.

(** C5 on the test [b.test]. *)
Lemma krun_invoked_on_input_path_witness :
  ∃ st' tree cs1 cs2 i,
    run listing only_krun sh_ignore (tree_of two_tests) = (Ok tt, st')
    ∧ calls st' = cs1 ++ {| call_cmd := cmd_of "b.test"; call_outcome := ShRan i |} :: cs2
    ∧ (cmd_of "b.test" ∉ call_cmd <$> (cs1 ++ cs2))
    ∧ inv_argv i = ["krun"; "--search"; input_path "b.test"]
    ∧ inv_stdout i = Some (output_path "b.test")
    ∧ spawn only_krun "krun" ["--search"; input_path "b.test"] tree
      = (inv_output i, inv_status i)
    ∧ read_file (output_path "b.test") (fs st') = Some (inv_output i).
Proof.
  apply (krun_invoked_on_input_path listing listing_perm only_krun sh_ignore
           (tree_of two_tests) two_tests "b.test").
  - reflexivity.
  - vm_compute. repeat constructor.
  - reflexivity.
  - reflexivity.
  - reflexivity.
  - reflexivity.
Defined.

(** C5 as first stated fails on the spaced name: [krun] gets three
    arguments after the flag [--search], none of them the input path, and
    prints into [tests/a]. *)
Lemma spaced_input_splits_the_arguments :
  ∃ st',
    run listing only_krun sh_ignore (tree_of spaced) = (Ok tt, st')
    ∧ calls st'
      = [ {| call_cmd := "krun --search tests/a b > tests/a b.out";
             call_outcome :=
               ShRan {| inv_argv := ["krun"; "--search"; "tests/a"; "b"; "b.out"];
                        inv_stdout := Some "tests/a";
                        inv_output := "ran --search tests/a b b.out";
                        inv_status := 0 |} |} ]
    ∧ input_path "a b" = "tests/a b"
    ∧ read_file (output_path "a b") (fs st') = None.
Proof. eexists. by vm_compute. Qed.

(** C6 in an empty working directory. *)
Lemma missing_directory_raises_witness :
  run listing only_krun sh_ignore (Dir ∅)
  = (Raise FileNotFoundError, {| fs := Dir ∅; calls := [] |}).
Proof.
  exact (missing_directory_raises listing only_krun sh_ignore (Dir ∅) eq_refl).
Defined.

(** C7 with no program at all. *)
Lemma failures_do_not_stop_the_loop_witness :
  ∃ st',
    run listing no_programs sh_ignore (tree_of two_tests) = (Ok tt, st')
    ∧ ∀ l1 f l2, inputs listing (tree_of two_tests) two_tests = l1 ++ f :: l2 →
        ∃ cs1 c cs2,
          calls st' = cs1 ++ c :: cs2
          ∧ call_cmd <$> cs1 = cmd_of <$> l1
          ∧ call_cmd c = cmd_of f
          ∧ call_cmd <$> cs2 = cmd_of <$> l2.
Proof.
  apply (failures_do_not_stop_the_loop listing no_programs sh_ignore
           (tree_of two_tests) two_tests).
  reflexivity.
Defined.

(** C8 on the spaced name. *)
Lemma inputs_fixed_before_first_call_witness :
  ∃ st',
    run listing only_krun sh_ignore (tree_of spaced) = (Ok tt, st')
    ∧ call_cmd <$> calls st'
      = cmd_of <$> filter (qualifies (tree_of spaced)) (listing spaced)
    ∧ ∀ g, spaced !! g = None → cmd_of g ∉ call_cmd <$> calls st'.
Proof.
  apply (inputs_fixed_before_first_call listing listing_perm only_krun sh_ignore
           (tree_of spaced) spaced).
  reflexivity.
Defined.

(** The run on the spaced name makes the file [tests/a], which would be
    selected by a listing taken afterwards, and issues no command for it. *)
Lemma file_made_during_run_not_picked_up :
  ∃ st',
    run listing only_krun sh_ignore (tree_of spaced) = (Ok tt, st')
    ∧ spaced !! "a" = None
    ∧ qualifies (fs st') "a"
    ∧ call_cmd <$> calls st' = [cmd_of "a b"].
Proof. eexists. by vm_compute. Qed.

(** C9 with no program at all. *)
Lemma output_created_before_command_runs_witness :
  ∃ st' tree out status,
    run listing no_programs sh_ignore (tree_of two_tests) = (Ok tt, st')
    ∧ read_file (output_path "a.test") tree = Some ""
    ∧ spawn no_programs "krun" (krun_args "a.test") tree = (out, status)
    ∧ read_file (output_path "a.test") (fs st') = Some out
    ∧ (no_programs "krun" = None → out = "" ∧ status = 127).
Proof.
  apply (output_created_before_command_runs listing listing_perm no_programs
           sh_ignore (tree_of two_tests) two_tests "a.test").
  - reflexivity.
  - vm_compute. repeat constructor.
  - reflexivity.
  - reflexivity.
  - reflexivity.
  - reflexivity.
Defined.

(** C9 as first stated fails on the spaced name: with [krun] absent the
    file the shell makes is [tests/a], and [tests/a b.out] is not made. *)
Lemma spaced_input_output_not_created :
  is_file (spaced !! "a b") = true
  ∧ py_in ".out" "a b" = false
  ∧ ∃ st',
      run listing no_programs sh_ignore (tree_of spaced) = (Ok tt, st')
      ∧ lookup_path [TEST_DIR; out_name "a b"] (fs st') = None
      ∧ lookup_path [TEST_DIR; "a"] (fs st') = Some (File "").
Proof. do 2 (split; [reflexivity|]). eexists. by vm_compute. Qed.

(** ** Why the amended claims ask what they ask *)

(** A directory in the place of the output file: the redirection fails, the
    command is not run and nothing is written. *)
Lemma directory_bars_the_output :
  run listing only_krun sh_ignore (tree_of barred)
  = (Ok tt, {| fs := tree_of barred; calls := [redir_failed "a"] |}).
Proof. by vm_compute. Qed.

(** A selected name outside the fragment, next to a plain one: what the
    shell makes of its line decides what is left of the plain one's output. *)
Lemma hostile_neighbour_undoes_the_output :
  inputs listing (tree_of hostile) hostile = ["a"; "b;c"]
  ∧ sh_parse (cmd_of "b;c") = POther
  ∧ ∃ st',
      run listing only_krun sh_wipe (tree_of hostile) = (Ok tt, st')
      ∧ call_cmd <$> calls st' = [cmd_of "a"; cmd_of "b;c"]
      ∧ read_file (output_path "a") (fs st') = None.
Proof. do 2 (split; [by vm_compute|]). eexists. by vm_compute. Qed.

(** * Further properties of the script *)

(** ** The membership test and the two ways the script builds a path *)

Lemma str_prefix_inv (s t : string) :
  String.prefix s t = true → ∃ u, t = s +:+ u.
Proof.
  revert t. induction s as [|c s IH]; intros t; [by exists t|].
  destruct t as [|c' t]; [done|].
  change (String.prefix (String c s) (String c' t))
    with (match ascii_dec c c' with left _ => String.prefix s t | right _ => false end).
  destruct (ascii_dec c c') as [<-|]; [|done].
  intros (u & ->)%IH. by exists u.
Qed.

(** X8.  [needle in hay] holds exactly when [hay] is some text, then
    [needle], then some text: the test of the script finds [.out] anywhere
    in a name, not only at its end. *)
Theorem py_in_iff_substring needle hay :
  py_in needle hay = true ↔ ∃ s t, hay = s +:+ needle +:+ t.
Proof.
  split; [|intros (s & t & ->); apply py_in_app].
  induction hay as [|c hay IH]; cbn -[String.prefix].
  - intros (u & Hu)%str_prefix_inv. by exists "", u.
  - intros [(u & Hu)%str_prefix_inv|(s & t & ->)%IH]%orb_true_iff.
    + by exists "", u.
    + by exists (String c s), t.
Qed.

(** X7.  The path [isfile] is asked about, [join(TEST_DIR, f)], and the path
    the loop formats with [%s/%s] are the same path exactly for the names
    that do not start with the separator; for the others [join] drops the
    directory. *)
Theorem join_agrees_with_format f :
  pyformat "%s/%s" [TEST_DIR; f] = Some (join TEST_DIR f)
  ↔ String.prefix "/" f = false.
Proof.
  rewrite pyformat_path. split.
  - intros [= H]. destruct (String.prefix "/" f) eqn:Hf; [|done].
    unfold join in H. rewrite Hf in H.
    apply (f_equal String.length) in H. cbn in H. lia.
  - intros Hf. unfold join. by rewrite Hf.
Qed.

(** ** Which names are run, and what a run leaves alone *)

Lemma path_of_input_no_slash f : no_slash f → path_of (input_path f) = [TEST_DIR; f].
Proof.
  intros Hf. unfold path_of, input_path, TEST_DIR.
  change ("tests" +:+ "/" +:+ f) with ("tests" +:+ String "/" f).
  rewrite str_split_app by done. by rewrite str_split_plain.
Qed.

Lemma no_slash_prefix f : no_slash f → String.prefix "/" f = false.
Proof.
  destruct f as [|c f]; [done|]. unfold no_slash. intros H.
  rewrite prefix_char. cbn in H.
  apply andb_true_iff in H as [Hc%bool_decide_eq_true _].
  by apply bool_decide_eq_false_2.
Qed.

Lemma isfile_entry es d f :
  no_slash f → isfile (join TEST_DIR f) (with_tests es d) = is_file (d !! f).
Proof.
  intros Hf. unfold isfile. rewrite join_tests by by apply no_slash_prefix.
  change ("tests" +:+ String "/" f) with (input_path f).
  by rewrite path_of_input_no_slash, lookup_with_tests_entry.
Qed.

Section More.

Variable ls_order : gmap string node → list string.
Hypothesis ls_order_perm : ∀ es, ls_order es ≡ₚ (map_to_list es).*1.
Variable programs : string → option program.
Variable sh_other : string → node → node.

Local Abbreviation spawn := (spawn programs).
Local Abbreviation sh := (sh programs sh_other).
Local Abbreviation body := (body programs sh_other).
Local Abbreviation run := (run ls_order programs sh_other).
Local Abbreviation inputs := (inputs ls_order).
Local Abbreviation effect := (effect programs).
Local Abbreviation effects := (effects programs).

(** X1.  When no entry of the test directory is selected (it is empty, or
    holds only directories and names with [.out]), the run ends normally,
    calls nothing and leaves the tree as it was. *)
Theorem nothing_selected_nothing_done root d :
  lookup_path [TEST_DIR] root = Some (Dir d) →
  (∀ g, is_Some (d !! g) → ¬ qualifies root g) →
  run root = (Ok tt, {| fs := root; calls := [] |}).
Proof.
  intros Hd Hnone. rewrite (run_eq _ _ _ _ d) by done.
  assert (inputs root d = []) as ->; [|done].
  apply elem_of_nil_inv. intros g [Hq Hg]%(elem_of_inputs ls_order ls_order_perm).
  by apply (Hnone g).
Qed.

(** X2.  Among the names a directory can hold (those without the
    separator), the ones a run hands to the shell are exactly the regular
    files of the test directory without [.out] in their name: directories,
    absent names and names with [.out] get no command line. *)
Theorem run_selects_regular_files root d :
  lookup_path [TEST_DIR] root = Some (Dir d) →
  ∃ st',
    run root = (Ok tt, st')
    ∧ ∀ f, no_slash f →
        (cmd_of f ∈ call_cmd <$> calls st'
         ↔ is_file (d !! f) = true ∧ py_in ".out" f = false).
Proof.
  intros Hd. destruct (run_cmds ls_order programs sh_other root d Hd)
    as (st' & Hrun & Hc).
  exists st'. split; [done|]. intros f Hf. rewrite Hc.
  apply lookup_tests_inv in Hd as (es & -> & _).
  split.
  - intros (g & ->%cmd_of_inj & [[Hfile Hout] _]%(elem_of_inputs ls_order ls_order_perm))%list_elem_of_fmap.
    by rewrite isfile_entry in Hfile.
  - intros [Hfile Hout]. apply list_elem_of_fmap_2.
    apply (elem_of_inputs ls_order ls_order_perm). split.
    + split; [|done]. by rewrite isfile_entry.
    + by destruct (d !! f).
Qed.

(** X3.  No command line is issued twice in a run: every selected input is
    handed to the shell once. *)
Theorem no_input_run_twice root d :
  lookup_path [TEST_DIR] root = Some (Dir d) →
  ∃ st',
    run root = (Ok tt, st')
    ∧ NoDup (call_cmd <$> calls st')
    ∧ length (calls st') = length (inputs root d).
Proof.
  intros Hd. destruct (run_cmds ls_order programs sh_other root d Hd)
    as (st' & Hrun & Hc).
  exists st'. split; [done|]. split.
  - rewrite Hc. apply NoDup_fmap_2; [|by apply NoDup_inputs].
    intros f g. apply cmd_of_inj.
  - apply (f_equal length) in Hc. by rewrite !length_fmap in Hc.
Qed.

(** X4.  With plain names selected, a run changes nothing but regular files
    of the test directory whose name has [.out]: every entry without
    [.out], every subdirectory, and everything in the working directory
    beside [tests] are at the end what they were. *)
Theorem run_touches_only_outputs root d :
  lookup_path [TEST_DIR] root = Some (Dir d) →
  Forall plain_name (inputs root d) →
  ∃ st' d',
    run root = (Ok tt, st')
    ∧ lookup_path [TEST_DIR] (fs st') = Some (Dir d')
    ∧ (∀ k, py_in ".out" k = false → d' !! k = d !! k)
    ∧ (∀ k, is_dir (d !! k) = true → d' !! k = d !! k)
    ∧ (∀ k, is_Some (d !! k) → is_Some (d' !! k))
    ∧ (∀ k rest, k ≠ TEST_DIR →
         lookup_path (k :: rest) (fs st') = lookup_path (k :: rest) root).
Proof.
  intros (es & -> & Hes)%lookup_tests_inv Hp.
  rewrite (run_plain ls_order programs sh_other) by done.
  eexists _, _. split; [done|]. cbn [fs].
  split; [apply lookup_with_tests|].
  split; [intros; by apply effects_lookup_no_out|].
  split; [intros; by apply effects_lookup_dir|].
  split; [intros k Hk; apply effects_is_Some; by left|].
  intros k rest Hk. unfold with_tests. cbn [lookup_path].
  by rewrite !lookup_insert_ne.
Qed.

(** X5.  What an output file held before its command starts has no part in
    the call: the redirection empties the file first, so the shell does the
    same on two trees that differ only in that content. *)
Theorem old_output_is_discarded es d f old old' :
  plain_name f →
  sh (cmd_of f) (with_tests es (<[out_name f := File old]> d))
  = sh (cmd_of f) (with_tests es (<[out_name f := File old']> d)).
Proof.
  intros Hf. rewrite !(sh_plain programs sh_other) by done.
  unfold effect, seen. rewrite !lookup_insert_eq. cbn [is_dir].
  rewrite !insert_insert_eq. destruct (spawn _ _ _) as [out status].
  cbn [fst snd]. by rewrite !insert_insert_eq.
Qed.

(** X6.  A directory in the place of the output file of a plain name: the
    loop body ends normally, the command is not run, the tree stays as it
    is and the call is recorded as a failed redirection. *)
Theorem directory_blocks_the_call es d f cs :
  plain_name f →
  is_dir (d !! out_name f) = true →
  body f {| fs := with_tests es d; calls := cs |}
  = (Ok tt, {| fs := with_tests es d; calls := cs ++ [redir_failed f] |}).
Proof.
  intros Hf Hd. rewrite (body_plain programs sh_other) by done.
  by rewrite (effect_refused programs).
Qed.

(** X9.  With plain names selected, a second run issues the command lines
    of the first, each once, possibly in another order: the files the first
    run made are not inputs of the second. *)
Theorem second_run_same_commands root d :
  lookup_path [TEST_DIR] root = Some (Dir d) →
  Forall plain_name (inputs root d) →
  ∃ st1 st2,
    run root = (Ok tt, st1)
    ∧ run (fs st1) = (Ok tt, st2)
    ∧ call_cmd <$> calls st2 ≡ₚ call_cmd <$> calls st1.
Proof.
  intros (es & -> & Hes)%lookup_tests_inv Hp.
  set (l := inputs (with_tests es d) d) in *.
  set (d1 := (effects es d l).1).
  set (l1 := inputs (with_tests es d1) d1).
  assert (l1 ≡ₚ l) as Hperm by by apply inputs_after.
  assert (Forall plain_name l1) as Hp1 by by rewrite Hperm.
  exists {| fs := with_tests es d1; calls := (effects es d l).2 |},
    {| fs := with_tests es (effects es d1 l1).1; calls := (effects es d1 l1).2 |}.
  split; [by apply run_plain|]. cbn [fs calls].
  split; [by apply run_plain|].
  by rewrite !effects_cmds, Hperm.
Qed.

Hypothesis krun_blind : tree_blind programs.

Lemma effects_blind_lookup es d l f :
  f ∈ l → is_dir (d !! out_name f) = false →
  (effects es d l).1 !! out_name f = Some (File (krun_out programs f)).
Proof.
  revert d. induction l as [|g l IH]; intros d Hf Hd; [by apply elem_of_nil in Hf|].
  rewrite effects_cons. cbn [fst]. destruct (decide (f ∈ l)) as [Hl|Hl].
  - apply IH; [done|]. by rewrite effect_is_dir.
  - apply elem_of_cons in Hf as [->|]; [|done].
    rewrite effects_lookup_ne.
    + destruct (effect_written programs es d g Hd) as (out & status & Hrun & ->).
      cbn [fst]. rewrite lookup_insert_eq. unfold krun_out.
      by rewrite (krun_blind _ _ (seen es d g)), Hrun.
    + intros (h & ->%out_name_inj & Hh)%list_elem_of_fmap. done.
Qed.

(** With a tree-blind [krun], the test directory a loop leaves depends on
    the set of names it went through, not on their order. *)
Lemma effects_blind_order es d l l' :
  (∀ f, f ∈ l ↔ f ∈ l') → (effects es d l).1 = (effects es d l').1.
Proof.
  intros Hll. apply map_eq. intros k.
  destruct (decide (k ∈ out_name <$> l)) as [Hk|Hk].
  - apply list_elem_of_fmap in Hk as (f & -> & Hf).
    destruct (is_dir (d !! out_name f)) eqn:Hd.
    + by rewrite !effects_lookup_dir.
    + rewrite !effects_blind_lookup; auto. by apply Hll.
  - rewrite !effects_lookup_ne; [done| |done].
    intros (f & -> & Hf)%list_elem_of_fmap. apply Hk, list_elem_of_fmap_2.
    by apply Hll.
Qed.

(** X10.  With plain names selected and a [krun] that depends on its
    arguments only, a second run leaves the whole tree as the first run
    left it. *)
Theorem second_run_changes_nothing root d :
  lookup_path [TEST_DIR] root = Some (Dir d) →
  Forall plain_name (inputs root d) →
  ∃ st1 st2,
    run root = (Ok tt, st1)
    ∧ run (fs st1) = (Ok tt, st2)
    ∧ fs st2 = fs st1.
Proof.
  intros (es & -> & Hes)%lookup_tests_inv Hp.
  set (l := inputs (with_tests es d) d) in *.
  set (d1 := (effects es d l).1).
  set (l1 := inputs (with_tests es d1) d1).
  assert (l1 ≡ₚ l) as Hperm by by apply inputs_after.
  assert (Forall plain_name l1) as Hp1 by by rewrite Hperm.
  exists {| fs := with_tests es d1; calls := (effects es d l).2 |},
    {| fs := with_tests es (effects es d1 l1).1; calls := (effects es d1 l1).2 |}.
  split; [by apply run_plain|]. cbn [fs calls].
  split; [by apply run_plain|]. f_equal.
  apply map_eq. intros k.
  destruct (decide (k ∈ out_name <$> l1)) as [Hk|Hk]; [|by apply effects_lookup_ne].
  apply list_elem_of_fmap in Hk as (f & -> & Hf).
  destruct (is_dir (d1 !! out_name f)) eqn:Hd1; [by apply effects_lookup_dir|].
  rewrite effects_blind_lookup by done. symmetry. unfold d1.
  apply effects_blind_lookup; [by rewrite <- Hperm|].
  unfold d1 in Hd1. by rewrite effects_is_dir in Hd1.
Qed.

End More.

(** X11.  With plain names selected and a [krun] that depends on its
    arguments only, the tree a run leaves does not depend on the order in
    which [os.listdir] yields the names. *)
Theorem listing_order_is_immaterial
    (ls1 ls2 : gmap string node → list string) programs sh_other root d :
  (∀ es, ls1 es ≡ₚ (map_to_list es).*1) →
  (∀ es, ls2 es ≡ₚ (map_to_list es).*1) →
  tree_blind programs →
  lookup_path [TEST_DIR] root = Some (Dir d) →
  Forall plain_name (inputs ls1 root d) →
  (run ls1 programs sh_other root).1 = Ok tt
  ∧ (run ls2 programs sh_other root).1 = Ok tt
  ∧ fs (run ls1 programs sh_other root).2 = fs (run ls2 programs sh_other root).2.
Proof.
  intros H1 H2 Hb (es & -> & Hes)%lookup_tests_inv Hp.
  assert (∀ f, f ∈ inputs ls1 (with_tests es d) d ↔ f ∈ inputs ls2 (with_tests es d) d)
    as Hsame by (intros f; by rewrite !elem_of_inputs).
  assert (Forall plain_name (inputs ls2 (with_tests es d) d)) as Hp2.
  { rewrite Forall_forall in Hp. apply Forall_forall. intros f Hf.
    by apply Hp, Hsame. }
  rewrite !run_plain by done. cbn [fst snd fs].
  do 2 (split; [done|]). f_equal. by apply effects_blind_order.
Qed.

(** ** The further properties on sample trees *)

Lemma listing_rev_perm es : listing_rev es ≡ₚ (map_to_list es).*1.
Proof. unfold listing_rev. by rewrite reverse_Permutation. Qed.

Lemma only_krun_blind : tree_blind only_krun.
Proof. by intros args t1 t2. Qed.

Lemma outputs_only_none_selected g :
  is_Some (outputs_only !! g) → ¬ qualifies (tree_of outputs_only) g.
Proof.
  intros [n Hn%elem_of_map_to_list] [Hfile Hout].
  replace (map_to_list outputs_only)
    with [("sub", Dir ∅); ("a.test.out", File "old"); ("notes.output.txt", File "n")]
    in Hn by by vm_compute.
  rewrite !elem_of_cons, elem_of_nil in Hn.
  destruct Hn as [[= -> _]|[[= -> _]|[[= -> _]|[]]]]; by vm_compute in Hfile, Hout.
Qed.

(** X1 on a directory that holds an old output, a subdirectory and a name
    with [.out] in its middle. *)
Lemma nothing_selected_nothing_done_witness :
  run listing only_krun sh_ignore (tree_of outputs_only)
  = (Ok tt, {| fs := tree_of outputs_only; calls := [] |}).
Proof.
  apply (nothing_selected_nothing_done listing listing_perm only_krun sh_ignore
           (tree_of outputs_only) outputs_only).
  - reflexivity.
  - apply outputs_only_none_selected.
Defined.

(** X2 on the directory with two tests. *)
Lemma run_selects_regular_files_witness :
  ∃ st',
    run listing only_krun sh_ignore (tree_of two_tests) = (Ok tt, st')
    ∧ ∀ f, no_slash f →
        (cmd_of f ∈ call_cmd <$> calls st'
         ↔ is_file (two_tests !! f) = true ∧ py_in ".out" f = false).
Proof.
  apply (run_selects_regular_files listing listing_perm only_krun sh_ignore
           (tree_of two_tests) two_tests).
  reflexivity.
Defined.

(** X3 on the directory with two tests. *)
Lemma no_input_run_twice_witness :
  ∃ st',
    run listing only_krun sh_ignore (tree_of two_tests) = (Ok tt, st')
    ∧ NoDup (call_cmd <$> calls st')
    ∧ length (calls st') = length (inputs listing (tree_of two_tests) two_tests).
Proof.
  apply (no_input_run_twice listing listing_perm only_krun sh_ignore
           (tree_of two_tests) two_tests).
  reflexivity.
Defined.

(** X4 on the directory with two tests. *)
Lemma run_touches_only_outputs_witness :
  ∃ st' d',
    run listing only_krun sh_ignore (tree_of two_tests) = (Ok tt, st')
    ∧ lookup_path [TEST_DIR] (fs st') = Some (Dir d')
    ∧ (∀ k, py_in ".out" k = false → d' !! k = two_tests !! k)
    ∧ (∀ k, is_dir (two_tests !! k) = true → d' !! k = two_tests !! k)
    ∧ (∀ k, is_Some (two_tests !! k) → is_Some (d' !! k))
    ∧ (∀ k rest, k ≠ TEST_DIR →
         lookup_path (k :: rest) (fs st')
         = lookup_path (k :: rest) (tree_of two_tests)).
Proof.
  apply (run_touches_only_outputs listing only_krun sh_ignore
           (tree_of two_tests) two_tests).
  - reflexivity.
  - vm_compute. repeat constructor.
Defined.

(** X5 on the test [a.test] with two different old outputs. *)
Lemma old_output_is_discarded_witness :
  sh only_krun sh_ignore (cmd_of "a.test")
    (with_tests ∅ (<[out_name "a.test" := File "old"]> two_tests))
  = sh only_krun sh_ignore (cmd_of "a.test")
      (with_tests ∅ (<[out_name "a.test" := File "older"]> two_tests)).
Proof.
  apply (old_output_is_discarded only_krun sh_ignore ∅ two_tests "a.test" "old" "older").
  reflexivity.
Defined.

(** X6 on the directory where [a.out] is a directory. *)
Lemma directory_blocks_the_call_witness :
  body only_krun sh_ignore "a" {| fs := with_tests ∅ barred; calls := [] |}
  = (Ok tt, {| fs := with_tests ∅ barred; calls := [] ++ [redir_failed "a"] |}).
Proof.
  apply (directory_blocks_the_call only_krun sh_ignore ∅ barred "a" []).
  - reflexivity.
  - reflexivity.
Defined.

(** X9 on the directory with two tests. *)
Lemma second_run_same_commands_witness :
  ∃ st1 st2,
    run listing only_krun sh_ignore (tree_of two_tests) = (Ok tt, st1)
    ∧ run listing only_krun sh_ignore (fs st1) = (Ok tt, st2)
    ∧ call_cmd <$> calls st2 ≡ₚ call_cmd <$> calls st1.
Proof.
  apply (second_run_same_commands listing listing_perm only_krun sh_ignore
           (tree_of two_tests) two_tests).
  - reflexivity.
  - vm_compute. repeat constructor.
Defined.

(** X10 on the directory with two tests. *)
Lemma second_run_changes_nothing_witness :
  ∃ st1 st2,
    run listing only_krun sh_ignore (tree_of two_tests) = (Ok tt, st1)
    ∧ run listing only_krun sh_ignore (fs st1) = (Ok tt, st2)
    ∧ fs st2 = fs st1.
Proof.
  apply (second_run_changes_nothing listing listing_perm only_krun sh_ignore
           only_krun_blind (tree_of two_tests) two_tests).
  - reflexivity.
  - vm_compute. repeat constructor.
Defined.

(** X11 on the directory with two tests, listed forwards and backwards. *)
Lemma listing_order_is_immaterial_witness :
  (run listing only_krun sh_ignore (tree_of two_tests)).1 = Ok tt
  ∧ (run listing_rev only_krun sh_ignore (tree_of two_tests)).1 = Ok tt
  ∧ fs (run listing only_krun sh_ignore (tree_of two_tests)).2
    = fs (run listing_rev only_krun sh_ignore (tree_of two_tests)).2.
Proof.
  apply (listing_order_is_immaterial listing listing_rev only_krun sh_ignore
           (tree_of two_tests) two_tests).
  - apply listing_perm.
  - apply listing_rev_perm.
  - apply only_krun_blind.
  - reflexivity.
  - vm_compute. repeat constructor.
Defined.
